(** * Census desktop client: data-access and tabular presentation layer

    A shallow embedding of [src/frontend/census_app.py] and
    [src/frontend/census_crud_ui.py]: the reusable grid ([DataTreeview]:
    live filter, CSV export, column reconfiguration), the form coercions of
    the two insert paths, the session handling of the two [connect_db]
    methods and the cursor draining of [sp_get_person_by_id].

    Text is modelled as [string]: the bytes of its UTF-8 encoding. The
    builtins whose result depends on the interpreter's Unicode tables
    ([str.lower], [int], [strptime]) and what Tk hands back for the values
    of an item are a parameter of the development, the [Runtime]; what is
    fixed about them is their behaviour on ASCII text. *)

From stdpp Require Import gmap strings list pretty.
From Stdlib Require Import Ascii ZArith Lia.

Local Open Scope Z_scope.

(** ** Python values and builtins *)

Module Py.

(** Scalars that reach the client: [None], [str], [int], [datetime.date],
    [datetime.datetime], and numbers with a fractional part, which are carried
    by the text [str()] prints for them. *)
Inductive pyval : Type :=
| VNone
| VStr (s : string)
| VInt (n : Z)
| VNum (printed : string)
| VDate (year month day : Z)
| VDateTime (year month day hour minute second : Z).

#[global] Instance pyval_eq_dec : EqDecision pyval.
Proof. solve_decision. Defined.

(** [s.zfill(w)]-style padding used by the ["%04d"] and ["%02d"] fields of
    [date.isoformat]. *)
Fixpoint zeros (n : nat) : string :=
  match n with
  | O => ""
  | S n' => String "0" (zeros n')
  end.

Definition pad0 (w : nat) (n : Z) : string :=
  let s := pretty n in zeros (w - String.length s) +:+ s.

(** The [w] low decimal digits of [n], most significant first: what
    [pad0 w] prints for a number of at most [w] digits. *)
Fixpoint digits (w : nat) (n : N) : string :=
  match w with
  | O => ""
  | S w' => digits w' (n / 10) +:+ String (pretty_N_char (n mod 10)) ""
  end.

Definition isoformat (y m d : Z) : string :=
  pad0 4 y +:+ "-" +:+ pad0 2 m +:+ "-" +:+ pad0 2 d.

(** [str(v)] *)
Definition str (v : pyval) : string :=
  match v with
  | VNone => "None"
  | VStr s => s
  | VInt n => pretty n
  | VNum printed => printed
  | VDate y m d => isoformat y m d
  | VDateTime y m d hh mi ss =>
      isoformat y m d +:+ " " +:+ pad0 2 hh +:+ ":" +:+ pad0 2 mi +:+ ":" +:+ pad0 2 ss
  end.

(** [value or None] on a [str] *)
Definition or_None (s : string) : pyval :=
  match s with
  | "" => VNone
  | _ => VStr s
  end.

(** [c.lower()] on an ASCII character: [A] to [Z] are folded, every other
    byte is left as it is. *)
Definition lower_char (c : ascii) : ascii :=
  let n := N_of_ascii c in
  if ((65 <=? n) && (n <=? 90))%N then ascii_of_N (n + 32) else c.

(** [s.lower()] on ASCII text *)
Fixpoint ascii_lower (s : string) : string :=
  match s with
  | "" => ""
  | String c s' => String (lower_char c) (ascii_lower s')
  end.

(** [needle in hay] on [str]: substring containment *)
Fixpoint contains (needle hay : string) : bool :=
  String.prefix needle hay ||
  match hay with
  | "" => false
  | String _ hay' => contains needle hay'
  end.

(** [bool(s)] on a [str] *)
Definition truthy (s : string) : bool :=
  match s with
  | "" => false
  | _ => true
  end.

(** *** [int(text)] on ASCII text *)

(** [Py_ISSPACE] *)
Definition isspace (c : ascii) : bool :=
  let n := N_of_ascii c in ((9 <=? n) && (n <=? 13) || (n =? 32))%N.

Definition digit_value (c : ascii) : option Z :=
  let n := N_of_ascii c in
  if ((48 <=? n) && (n <=? 57))%N then Some (Z.of_N n - 48) else None.

Fixpoint lstrip (s : string) : string :=
  match s with
  | String c s' => if isspace c then lstrip s' else s
  | "" => ""
  end.

Fixpoint all_space (s : string) : bool :=
  match s with
  | "" => true
  | String c s' => isspace c && all_space s'
  end.

(** The interpreter's default cap on the digits of a decimal literal. *)
Definition max_str_digits : nat := 4300.

(** The scan of [long_from_string_base]: digits, with single underscores
    between them; yields the value, the number of digits and what follows. *)
Fixpoint scan_digits (s : string) (prev_underscore : bool) (acc : Z) (digits : nat)
    : option (Z * nat * string) :=
  match s with
  | "" => if prev_underscore then None else Some (acc, digits, "")
  | String c s' =>
      match digit_value c with
      | Some d => scan_digits s' false (10 * acc + d) (S digits)
      | None =>
          if Ascii.eqb c "_"
          then if prev_underscore then None else scan_digits s' true acc digits
          else if prev_underscore then None else Some (acc, digits, s)
      end
  end.

Definition unsigned_int (s : string) : option Z :=
  match s with
  | String "_" _ => None
  | _ =>
      match scan_digits s false 0 0%nat with
      | Some (n, digits, rest) =>
          if (0 <? digits)%nat && (digits <=? max_str_digits)%nat && all_space rest
          then Some n else None
      | None => None
      end
  end.

(** [int(text)] in base 10 on ASCII text; [None] is [ValueError]. *)
Definition ascii_int (text : string) : option Z :=
  match lstrip text with
  | String "+" s => unsigned_int s
  | String "-" s => Z.opp <$> unsigned_int s
  | s => unsigned_int s
  end.

(** *** [datetime.strptime(text, '%Y-%m-%d').date()] on ASCII text *)

Definition digit_in (lo hi : Z) (c : ascii) : option Z :=
  match digit_value c with
  | Some d => if (lo <=? d) && (d <=? hi) then Some d else None
  | None => None
  end.

(** One alternative of a directive's pattern: a fixed or ranged first
    character, then optionally a ranged digit. *)
Definition two_digits (lo1 hi1 lo2 hi2 : Z) (s : string) : option (Z * string) :=
  match s with
  | String c1 (String c2 rest) =>
      match digit_in lo1 hi1 c1, digit_in lo2 hi2 c2 with
      | Some d1, Some d2 => Some (10 * d1 + d2, rest)
      | _, _ => None
      end
  | _ => None
  end.

Definition one_digit (lo hi : Z) (s : string) : option (Z * string) :=
  match s with
  | String c rest => (fun d => (d, rest)) <$> digit_in lo hi c
  | "" => None
  end.

(** Ordered alternatives under a continuation, as the regular-expression
    matcher tries them. *)
Fixpoint first_match {A} (alts : list (string → option (Z * string)))
    (k : Z → string → option A) (s : string) : option A :=
  match alts with
  | [] => None
  | alt :: alts' =>
      match alt s with
      | Some (n, rest) =>
          match k n rest with
          | Some r => Some r
          | None => first_match alts' k s
          end
      | None => first_match alts' k s
      end
  end.

(** [%Y]: four digits *)
Definition directive_Y (s : string) : option (Z * string) :=
  match two_digits 0 9 0 9 s with
  | Some (hi, rest) =>
      match two_digits 0 9 0 9 rest with
      | Some (lo, rest') => Some (100 * hi + lo, rest')
      | None => None
      end
  | None => None
  end.

(** [%m]: [1[0-2]|0[1-9]|[1-9]] *)
Definition directive_m : list (string → option (Z * string)) :=
  [two_digits 1 1 0 2; two_digits 0 0 1 9; one_digit 1 9].

(** A character of the format that stands for itself. *)
Definition literal {A} (c : ascii) (k : string → option A) (s : string) : option A :=
  match s with
  | String c' rest => if Ascii.eqb c c' then k rest else None
  | "" => None
  end.

(** [%d]: [3[0-1]|[1-2]\d|0[1-9]|[1-9]| [1-9]] *)
Definition directive_d : list (string → option (Z * string)) :=
  [two_digits 3 3 0 1; two_digits 1 2 0 9; two_digits 0 0 1 9; one_digit 1 9;
   literal " " (one_digit 1 9)].

(** The compiled format matched at the start of the text: the three numbers
    and the unmatched remainder. *)
Definition match_format (text : string) : option (Z * Z * Z * string) :=
  match directive_Y text with
  | Some (y, rest) =>
      literal "-" (first_match directive_m (fun m =>
        literal "-" (first_match directive_d (fun d rest' =>
          Some (y, m, d, rest'))))) rest
  | None => None
  end.

Definition is_leap (y : Z) : bool :=
  (y mod 4 =? 0) && (negb (y mod 100 =? 0) || (y mod 400 =? 0)).

Definition days_in_month (y m : Z) : Z :=
  if m =? 2 then (if is_leap y then 29 else 28)
  else if (m =? 4) || (m =? 6) || (m =? 9) || (m =? 11) then 30
  else 31.

(** The range check of the [date] constructor. *)
Definition valid_date (y m d : Z) : bool :=
  (1 <=? y) && (y <=? 9999) && (1 <=? m) && (m <=? 12)
  && (1 <=? d) && (d <=? days_in_month y m).

(** [None] is [ValueError]: no match, unconverted data, or a day that the
    calendar does not have. *)
Definition ascii_strptime_ymd (text : string) : option pyval :=
  match match_format text with
  | Some (y, m, d, "") => if valid_date y m d then Some (VDate y m d) else None
  | _ => None
  end.

(** The spec's "exactly YYYY-MM-DD" text, and the year, month and day it
    spells: four digits, a dash, two digits, a dash, two digits. *)
Definition YYYY_MM_DD (s : string) : option (Z * Z * Z) :=
  match s with
  | String y1 (String y2 (String y3 (String y4 (String dash1
      (String m1 (String m2 (String dash2 (String d1 (String d2 ""))))))))) =>
      if Ascii.eqb dash1 "-" && Ascii.eqb dash2 "-" then
        match digit_value y1, digit_value y2, digit_value y3, digit_value y4,
              digit_value m1, digit_value m2, digit_value d1, digit_value d2 with
        | Some a, Some b, Some c, Some d, Some e, Some f, Some g, Some h =>
            Some (1000 * a + 100 * b + 10 * c + d, 10 * e + f, 10 * g + h)
        | _, _, _, _, _, _, _, _ => None
        end
      else None
  | _ => None
  end.

Definition is_YYYY_MM_DD (s : string) : bool :=
  match YYYY_MM_DD s with
  | Some _ => true
  | None => false
  end.

(** *** The runtime

    [str.lower], [int] and [strptime] read the interpreter's Unicode tables:
    [str.lower] folds every cased letter, in a way that can depend on the
    letters around it; [int] and [strptime] read every decimal digit, and
    [int] strips every blank, that Unicode has. [Treeview.item] hands back
    what Tcl made of the values an item was inserted with. The development
    is parameterised by these four functions. On text that is ASCII only
    the builtins are the functions above; a lowered text is empty exactly
    when the text is; and what [strptime(...).date()] returns is a date of
    the calendar. *)

Fixpoint is_ascii (s : string) : bool :=
  match s with
  | "" => true
  | String c s' => (N_of_ascii c <? 128)%N && is_ascii s'
  end.

Class Runtime : Type := {
  lower : string → string;
  int : string → option Z;
  strptime_ymd : string → option pyval;
  item_values : list pyval → list pyval;
  lower_ascii : ∀ s, is_ascii s = true → lower s = ascii_lower s;
  lower_truthy : ∀ s, truthy (lower s) = truthy s;
  int_ascii : ∀ s, is_ascii s = true → int s = ascii_int s;
  strptime_ymd_ascii :
    ∀ s, is_ascii s = true → strptime_ymd s = ascii_strptime_ymd s;
  strptime_ymd_date :
    ∀ s v, strptime_ymd s = Some v →
           ∃ y m d, v = VDate y m d ∧ valid_date y m d = true
}.

(** The runtime cut down to ASCII: every text is read byte by byte, and an
    item gives back the text of each value. It agrees with every runtime on
    ASCII text, which is all that the worked examples below type in. *)
Definition ascii_runtime : Runtime.
Proof.
  refine {| lower := ascii_lower;
            int := ascii_int;
            strptime_ymd := ascii_strptime_ymd;
            item_values := List.map (fun v => VStr (str v)) |}.
  - reflexivity.
  - by intros [|c s].
  - reflexivity.
  - reflexivity.
  - intros s v. unfold ascii_strptime_ymd.
    destruct (match_format s) as [[[[y m] d] [|c rest]] |]; try discriminate.
    destruct (valid_date y m d) eqn:Hvalid; [| discriminate].
    intros [= <-]. by exists y, m, d.
Defined.

End Py.

Import Py.

(** A row as returned by the gateway: a [dict] from column name to value. *)
Abbreviation Row := (gmap string pyval).

(** [row.get(col, '')] *)
Definition row_get (row : Row) (col : string) : pyval :=
  default (VStr "") (row !! col).

(** [{cols[i]: values[i] for i in range(len(cols))}]; [None] stands for
    the [IndexError] of a too short [values]. *)
Fixpoint zip_dict (cols : list string) (values : list pyval) (acc : Row) : option Row :=
  match cols, values with
  | [], _ => Some acc
  | _ :: _, [] => None
  | c :: cols', v :: values' => zip_dict cols' values' (<[c := v]> acc)
  end.

(** ** The [csv] module, [excel] dialect

    [csv.writer] and [csv.reader] as the export uses them: delimiter [,],
    quote character 34, [QUOTE_MINIMAL], [doublequote], line terminator
    CR LF, no escape character, not strict. *)

Module Csv.

Definition delimiter : ascii := ","%char.
Definition quotechar : ascii := "034"%char.
Definition CR : ascii := "013"%char.
Definition LF : ascii := "010"%char.
Definition lineterminator : string := String CR (String LF "").

Definition is_newline (c : ascii) : bool := Ascii.eqb c LF || Ascii.eqb c CR.

(** *** Writer *)

(** The characters that make [join_append_data] set [*quoted]. *)
Definition special (c : ascii) : bool :=
  Ascii.eqb c delimiter || Ascii.eqb c quotechar || is_newline c.

Fixpoint needs_quotes (field : string) : bool :=
  match field with
  | "" => false
  | String c field' => special c || needs_quotes field'
  end.

(** The copy loop of [join_append_data]: a quote character is doubled. *)
Fixpoint copy_data (field : string) : string :=
  match field with
  | "" => ""
  | String c field' =>
      if Ascii.eqb c quotechar
      then String quotechar (String quotechar (copy_data field'))
      else String c (copy_data field')
  end.

(** [join_append(self, field, quoted)]: the separator when this is not the
    first field, then the field, between quotes when asked for or needed. *)
Definition join_append (rec : string) (num_fields : nat) (field : string)
    (quoted : bool) : string :=
  rec +:+ (if (0 <? num_fields)%nat then String delimiter "" else "")
      +:+ (if quoted || needs_quotes field
           then String quotechar (copy_data field +:+ String quotechar "")
           else field).

Fixpoint join_fields (fields : list string) (rec : string) (num_fields : nat)
    : string * nat :=
  match fields with
  | [] => (rec, num_fields)
  | field :: fields' =>
      join_fields fields' (join_append rec num_fields field false) (S num_fields)
  end.

(** [csv_writerow]: a record of one empty field is written as two quotes. *)
Definition writerow (fields : list string) : string :=
  let '(rec, num_fields) := join_fields fields "" 0%nat in
  let rec :=
    if (0 <? num_fields)%nat && (String.length rec =? 0)%nat
    then join_append rec (num_fields - 1) "" true
    else rec in
  rec +:+ lineterminator.

(** The text of one field as it stands in a record, and of the fields
    after the first, each behind its separator. *)
Definition field_repr (field : string) : string :=
  if needs_quotes field
  then String quotechar (copy_data field +:+ String quotechar "")
  else field.

Fixpoint tail_repr (fields : list string) : string :=
  match fields with
  | [] => ""
  | field :: fields' => String delimiter (field_repr field +:+ tail_repr fields')
  end.

(** [writer.writerows(records)]: the records one after the other. *)
Definition writerows (records : list (list string)) : string :=
  foldr (fun fields text => writerow fields +:+ text) "" records.

(** How the writer turns a value into field text: [None] is the empty
    field, a [str] is taken as it is, anything else goes through [str()]. *)
Definition field_text (v : pyval) : string :=
  match v with
  | VNone => ""
  | VStr s => s
  | _ => str v
  end.

(** [DictWriter._dict_to_list]: [None] is the [ValueError] raised for keys
    that are not field names; missing keys take [restval = '']. *)
Definition _dict_to_list (fieldnames : list string) (rowdict : Row)
    : option (list pyval) :=
  if decide (dom rowdict ⊆ (list_to_set fieldnames : gset string))
  then Some (List.map (fun key => row_get rowdict key) fieldnames)
  else None.

Definition DictWriter_writerow (fieldnames : list string) (rowdict : Row)
    : option string :=
  fields ← _dict_to_list fieldnames rowdict;
  Some (writerow (List.map field_text fields)).

(** [dict(zip(self.fieldnames, self.fieldnames))] *)
Definition header_dict (fieldnames : list string) : Row :=
  foldl (fun acc name => <[name := VStr name]> acc) ∅ fieldnames.

Definition DictWriter_writeheader (fieldnames : list string) : option string :=
  DictWriter_writerow fieldnames (header_dict fieldnames).

(** *** Reader *)

Inductive ParserState : Type :=
| START_RECORD
| START_FIELD
| IN_FIELD
| IN_QUOTED_FIELD
| QUOTE_IN_QUOTED_FIELD
| EAT_CRNL.

#[global] Instance ParserState_eq_dec : EqDecision ParserState.
Proof. solve_decision. Defined.

Record Reader : Type := mkReader {
  state : ParserState;
  field : string;
  fields : list string
}.

Definition parse_reset : Reader := mkReader START_RECORD "" [].

Definition parse_add_char (self : Reader) (c : ascii) (st : ParserState) : Reader :=
  mkReader st (field self +:+ String c "") (fields self).

Definition parse_save_field (self : Reader) (st : ParserState) : Reader :=
  mkReader st "" (fields self ++ [field self]).

Definition set_state (self : Reader) (st : ParserState) : Reader :=
  mkReader st (field self) (fields self).

Definition start_field (self : Reader) (c : ascii) : Reader :=
  if is_newline c then parse_save_field self EAT_CRNL
  else if Ascii.eqb c quotechar then set_state self IN_QUOTED_FIELD
  else if Ascii.eqb c delimiter then parse_save_field self START_FIELD
  else parse_add_char self c IN_FIELD.

(** [parse_process_char] on a character of the line; [None] is the
    [csv.Error] for a new-line character seen in an unquoted field. *)
Definition parse_process_char (self : Reader) (c : ascii) : option Reader :=
  match state self with
  | START_RECORD =>
      if is_newline c then Some (set_state self EAT_CRNL)
      else Some (start_field self c)
  | START_FIELD => Some (start_field self c)
  | IN_FIELD =>
      if is_newline c then Some (parse_save_field self EAT_CRNL)
      else if Ascii.eqb c delimiter then Some (parse_save_field self START_FIELD)
      else Some (parse_add_char self c IN_FIELD)
  | IN_QUOTED_FIELD =>
      if Ascii.eqb c quotechar then Some (set_state self QUOTE_IN_QUOTED_FIELD)
      else Some (parse_add_char self c IN_QUOTED_FIELD)
  | QUOTE_IN_QUOTED_FIELD =>
      if Ascii.eqb c quotechar then Some (parse_add_char self c IN_QUOTED_FIELD)
      else if Ascii.eqb c delimiter then Some (parse_save_field self START_FIELD)
      else if is_newline c then Some (parse_save_field self EAT_CRNL)
      else Some (parse_add_char self c IN_FIELD)
  | EAT_CRNL =>
      if is_newline c then Some self else None
  end.

(** [parse_process_char(self, EOL)], run after the last character of each
    line. *)
Definition parse_process_eol (self : Reader) : Reader :=
  match state self with
  | START_RECORD => self
  | START_FIELD | IN_FIELD | QUOTE_IN_QUOTED_FIELD =>
      parse_save_field self START_RECORD
  | IN_QUOTED_FIELD => self
  | EAT_CRNL => set_state self START_RECORD
  end.

(** Iterating a file opened with [newline=''] ends a line after LF, after a
    CR that no LF follows, and at the end of the text. *)
Definition line_ends (c : ascii) (rest : string) : bool :=
  match rest with
  | "" => true
  | String d _ => Ascii.eqb c LF || (Ascii.eqb c CR && negb (Ascii.eqb d LF))
  end.

(** End of input inside [Reader_iternext]: a pending field or an open quote
    still yields a last record. *)
Definition end_of_input (self : Reader) (records : list (list string))
    : list (list string) :=
  if (negb (String.length (field self) =? 0)%nat)
     || bool_decide (state self = IN_QUOTED_FIELD)
  then records ++ [fields (parse_save_field self START_RECORD)]
  else records.

(** [list(csv.reader(f))]: the lines of the text are fed character by
    character, each followed by the end-of-line step; a record is yielded
    whenever that step leaves the parser in [START_RECORD]. *)
Fixpoint read_from (self : Reader) (records : list (list string)) (text : string)
    : option (list (list string)) :=
  match text with
  | "" => Some (end_of_input self records)
  | String c rest =>
      match parse_process_char self c with
      | None => None
      | Some self1 =>
          if line_ends c rest
          then let self2 := parse_process_eol self1 in
               if bool_decide (state self2 = START_RECORD)
               then read_from parse_reset (records ++ [fields self2]) rest
               else read_from self2 records rest
          else read_from self1 records rest
      end
  end.

Definition reader (text : string) : option (list (list string)) :=
  read_from parse_reset [] text.

End Csv.

(** ** Dialogs and files *)

(** A [messagebox] call. *)
Inductive message : Type :=
| showwarning (title text : string)
| showinfo (title text : string)
| showerror (title text : string).

(** How the [with open(path, 'w', ...) as csvfile] block of the export can
    fail on a path: [open] raises, and the files are as they were; or the
    file is opened (and so truncated) and a write, the flush or the close
    raises, which leaves the file with some content. *)
Inductive open_failure : Type :=
| NotOpened (e : string)
| Broken (e : string) (content : string).

(** The file system as the export sees it: the content of each file, and
    for each path whether the [with open(path, 'w', ...)] block raises, and
    how; [None] when the path opens and everything written reaches it. *)
Record World : Type := mkWorld {
  files : gmap string string;
  open_error : string → option open_failure
}.

(** ** The reusable grid: [DataTreeview] *)

Module DataTreeview.

Section TreeviewRuntime.

Context {rt : Runtime}.

(** The [ttk.Treeview] that [self.tree] refers to: the inserted items (each
    the [values] list it was inserted with) and the indices of the selected
    items. *)
Record Treeview : Type := mkTreeview {
  children : list (list pyval);
  selection : list nat
}.

Record t : Type := mk {
  columns : list string;
  search_var : string;
  tree : Treeview;
  data : list Row
}.

(** [_init_widgets]: [self.search_var] and [self.tree] are bound to a fresh
    variable and a fresh, empty tree, and [self.data = []]. The object state
    is what is modelled; the frames packed by an earlier run stay in the Tk
    window but are no longer reachable from the object. *)
Definition _init_widgets (self : t) : t :=
  {| columns := columns self;
     search_var := "";
     tree := mkTreeview [] [];
     data := [] |}.

Definition __init__ (cols : list string) : t :=
  _init_widgets (mk cols "" (mkTreeview [] []) []).

(** The generator of line 288:
    [any(search_term in str(row.get(col, '')).lower() for col in self.columns)] *)
Definition row_matches (search_term : string) (cols : list string) (row : Row) : bool :=
  existsb (fun col => contains search_term (lower (str (row_get row col)))) cols.

(** The local [filtered_data] of [_refresh_tree] *)
Definition filtered_data (self : t) : list Row :=
  let search_term := lower (search_var self) in
  if truthy search_term
  then List.filter (row_matches search_term (columns self)) (data self)
  else data self.

(** The [values] list of line 293 *)
Definition row_values (cols : list string) (row : Row) : list pyval :=
  List.map (fun col => row_get row col) cols.

Definition _refresh_tree (self : t) : t :=
  {| columns := columns self;
     search_var := search_var self;
     tree := mkTreeview (List.map (row_values (columns self)) (filtered_data self)) [];
     data := data self |}.

Definition load_data (rows : list Row) (self : t) : t :=
  _refresh_tree
    {| columns := columns self; search_var := search_var self;
       tree := tree self; data := rows |}.

(** Writing the search variable fires the ['w'] trace, [_on_search], which
    calls [_refresh_tree]. *)
Definition set_filter (text : string) (self : t) : t :=
  _refresh_tree
    {| columns := columns self; search_var := text;
       tree := tree self; data := data self |}.

(** The user clicking the item at index [i] of the tree. *)
Definition click (i : nat) (self : t) : t :=
  {| columns := columns self; search_var := search_var self;
     tree := mkTreeview (children (tree self))
               (if decide (i < length (children (tree self)))%nat then [i] else []);
     data := data self |}.

Inductive selected : Type :=
| NoSelection
| SelectedRow (row : Row)
| SelectedIndexError.

(** [get_selected_row]: the values are what [self.tree.item(item, "values")]
    hands back for the first selected item, not the Python values the item
    was inserted with; indexing them by column position raises when they
    are fewer than the columns. *)
Definition get_selected_row (self : t) : selected :=
  match selection (tree self) with
  | [] => NoSelection
  | item :: _ =>
      match children (tree self) !! item with
      | None => NoSelection
      | Some values =>
          match zip_dict (columns self) (item_values values) ∅ with
          | Some row => SelectedRow row
          | None => SelectedIndexError
          end
      end
  end.

(** [self.report_tree.columns = columns; self.report_tree._init_widgets()]
    of the report handlers. *)
Definition reconfigure_columns (new_columns : list string) (self : t) : t :=
  _init_widgets
    {| columns := new_columns; search_var := search_var self;
       tree := tree self; data := data self |}.

(** [{col: row.get(col, '') for col in self.columns}] *)
Definition filtered_row (cols : list string) (row : Row) : Row :=
  foldl (fun acc col => <[col := row_get row col]> acc) ∅ cols.

(** The [for row in self.data] loop of the export: the text written so far,
    and whether a [writerow] raised. *)
Fixpoint write_rows (cols : list string) (rows : list Row) (written : string)
    : string * bool :=
  match rows with
  | [] => (written, false)
  | row :: rows' =>
      match Csv.DictWriter_writerow cols (filtered_row cols row) with
      | None => (written, true)
      | Some line => write_rows cols rows' (written +:+ line)
      end
  end.

(** The body of the [with open(...)] block. *)
Definition write_csv (cols : list string) (rows : list Row) : string * bool :=
  match Csv.DictWriter_writeheader cols with
  | None => ("", true)
  | Some header => write_rows cols rows header
  end.

(** [_export_csv]; [filename] is what [asksaveasfilename] returns (empty when
    the dialog is cancelled). Whatever the [with] block raises is caught and
    shown: an error of the file system, at [open] or after it, or a
    [ValueError] of the writer, reported with the fixed part of its text. *)
Definition _export_csv (self : t) (filename : string) (w : World)
    : list message * World :=
  match data self with
  | [] => ([showwarning "Export" "No data to export"], w)
  | _ :: _ =>
      if truthy filename then
        match open_error w filename with
        | Some (NotOpened e) =>
            ([showerror "Export Error" ("Failed to export: " +:+ e)], w)
        | Some (Broken e content) =>
            ([showerror "Export Error" ("Failed to export: " +:+ e)],
             mkWorld (<[filename := content]> (files w)) (open_error w))
        | None =>
            let '(text, raised) := write_csv (columns self) (data self) in
            let w' := mkWorld (<[filename := text]> (files w)) (open_error w) in
            if raised
            then ([showerror "Export Error"
                     "Failed to export: dict contains fields not in fieldnames"], w')
            else ([showinfo "Export" ("Data exported to " +:+ filename)], w')
        end
      else ([], w)
  end.

End TreeviewRuntime.

End DataTreeview.

(** ** The gateway: [OracleDB] *)

Module OracleDB.

(** The driver's open connections, by handle. *)
Record Driver : Type := mkDriver {
  live : gset nat;
  next_handle : nat
}.

(** [OracleDB(host, port, service, user, password)]: [accepts] tells whether
    [oracledb.connect] succeeds; a failure raises and opens nothing. *)
Definition __init__ (accepts : bool) (d : Driver) : option nat * Driver :=
  if accepts
  then (Some (next_handle d),
        mkDriver ({[next_handle d]} ∪ live d) (S (next_handle d)))
  else (None, d).

(** [close]: errors of [self.conn.close()] are swallowed. *)
Definition close (h : nat) (d : Driver) : Driver :=
  mkDriver (live d ∖ {[h]}) (next_handle d).

(** A positional argument of [callproc]. *)
Inductive proc_arg : Type :=
| ArgIn (v : pyval)
| ArgOutNumber
| ArgOutCursor.

(** [data.get(key)] *)
Definition get (data : Row) (key : string) : pyval :=
  default VNone (data !! key).

(** The argument list [sp_insert_person] of [census_app.py] passes to
    [INSERT_PERSON]. *)
Definition sp_insert_person_args (data : Row) : list proc_arg :=
  [ArgIn (get data "ea_code"); ArgIn (get data "structure_no");
   ArgIn (get data "household_no"); ArgIn (get data "line_no");
   ArgIn (get data "full_name"); ArgIn (get data "sex");
   ArgIn (get data "date_of_birth"); ArgIn (get data "age_years");
   ArgIn (get data "nationality"); ArgIn (get data "ethnicity");
   ArgIn (get data "religion"); ArgIn (get data "marital_status");
   ArgOutNumber].

(** What the ref cursor of [GET_PERSON_BY_ID] holds: the column names of
    its [description] and the rows [fetchall()] returns. *)
Record Cursor : Type := mkCursor {
  description : list string;
  fetchall : list (list pyval)
}.

(** How [sp_insert_person] can raise: before anything is committed, when
    [callproc] or [commit] raises; or after the commit, when
    [int(out_person_id.getvalue())] raises. *)
Inductive insert_error : Type :=
| BeforeCommit (e : string)
| AfterCommit (e : string).

Inductive result (A : Type) : Type :=
| Returned (a : A)
| Raised (e : string).
Arguments Returned {A} a.
Arguments Raised {A} e.

Section OracleRuntime.

Context {rt : Runtime}.

(** [sp_get_person_by_id] (the same text in both files); [reply] is what
    [callproc] does: raise, or fill the out cursor. *)
Definition sp_get_person_by_id (reply : string + Cursor) : result (option Row) :=
  match reply with
  | inl e => Raised e
  | inr out_cursor =>
      let rows := fetchall out_cursor in
      let cols :=
        match rows with
        | [] => []
        | _ :: _ => List.map lower (description out_cursor)
        end in
      match rows with
      | [] => Returned None
      | row :: _ =>
          match zip_dict cols row ∅ with
          | Some d => Returned (Some d)
          | None => Raised "tuple index out of range"
          end
      end
  end.

End OracleRuntime.

End OracleDB.

(** What a handler does, in order. *)
Inductive event : Type :=
| Msg (m : message)
| Callproc (name : string) (args : list OracleDB.proc_arg)
| Commit
| SetVar (key text : string)
| Log (text : string)
| LoadPersons.

(** The gateway calls among the events of a handler. *)
Definition is_backend_call (e : event) : bool :=
  match e with
  | Callproc _ _ | Commit | LoadPersons => true
  | Msg _ | SetVar _ _ | Log _ => false
  end.

Definition backend_calls (trace : list event) : list event :=
  List.filter is_backend_call trace.

(** ** [census_app.py]: [CensusApp] *)

Module CensusApp.

(** The keys of [self.person_vars], in the order the dict is built. *)
Definition person_vars : list string :=
  ["person_id"; "ea_code"; "structure_no"; "household_no"; "line_no";
   "full_name"; "sex"; "date_of_birth"; "age_years"; "nationality";
   "ethnicity"; "religion"; "marital_status"].

Section CensusRuntime.

Context {rt : Runtime}.

(** One turn of the loop of [insert_person]: the value stored under [key],
    or the warning shown before returning. *)
Definition coerce (key value : string) : message + pyval :=
  if String.eqb key "date_of_birth" && truthy value then
    match strptime_ymd value with
    | Some d => inr d
    | None => inl (showwarning "Invalid Date" "Date must be in YYYY-MM-DD format")
    end
  else if (String.eqb key "line_no" || String.eqb key "age_years") && truthy value then
    match int value with
    | Some n => inr (VInt n)
    | None => inl (showwarning "Invalid Number" (key +:+ " must be a number"))
    end
  else inr (or_None value).

Fixpoint collect (keys : list string) (vars : string → string) (data : Row)
    : message + Row :=
  match keys with
  | [] => inr data
  | key :: keys' =>
      match coerce key (vars key) with
      | inl m => inl m
      | inr v => collect keys' vars (<[key := v]> data)
      end
  end.

(** [insert_person]: [db] tells whether [self.db] is set, [vars] is the text
    of each form variable, [reply] is what [sp_insert_person] does (raise, or
    return the new id). [LoadPersons] is the closing [self.load_persons()]. *)
Definition insert_person (db : bool) (vars : string → string)
    (reply : OracleDB.insert_error + Z) : list event :=
  if negb db
  then [Msg (showwarning "Not Connected" "Please connect to the database first")]
  else
    match collect person_vars vars ∅ with
    | inl m => [Msg m]
    | inr data =>
        Callproc "INSERT_PERSON" (OracleDB.sp_insert_person_args data) ::
        match reply with
        | inl (OracleDB.BeforeCommit e) =>
            [Msg (showerror "Error" ("Failed to insert person: " +:+ e))]
        | inl (OracleDB.AfterCommit e) =>
            [Commit; Msg (showerror "Error" ("Failed to insert person: " +:+ e))]
        | inr new_id =>
            [Commit; SetVar "person_id" (pretty new_id);
             Msg (showinfo "Success" ("Person inserted with ID: " +:+ pretty new_id));
             LoadPersons]
        end
    end.

(** The session part of the application state. *)
Record Session : Type := mkSession {
  db : option nat;
  conn_status : string;
  driver : OracleDB.Driver
}.

(** [connect_db]: the prior gateway is closed first; [int(port)] or the
    driver may then raise, which leaves [self.db] as it was. The dialogs and
    the data refresh that follow do not touch the session. *)
Definition connect_db (port_var : string) (accepts : bool) (s : Session) : Session :=
  let d1 :=
    match db s with
    | Some h => OracleDB.close h (driver s)
    | None => driver s
    end in
  match int port_var with
  | None => mkSession (db s) "Connection Failed" d1
  | Some _ =>
      match OracleDB.__init__ accepts d1 with
      | (Some h, d2) => mkSession (Some h) "Connected" d2
      | (None, d2) => mkSession (db s) "Connection Failed" d2
      end
  end.

Definition disconnect_db (s : Session) : Session :=
  match db s with
  | Some h => mkSession None "Disconnected" (OracleDB.close h (driver s))
  | None => mkSession None "Disconnected" (driver s)
  end.

Definition initial : Session :=
  mkSession None "Not Connected" (OracleDB.mkDriver ∅ 0).

(** At most one live session, the one [self.db] holds; handles are never
    reused. *)
Definition single_session (s : Session) : Prop :=
  (∀ h, h ∈ OracleDB.live (driver s) → db s = Some h)
  ∧ (∀ h, db s = Some h → (h < OracleDB.next_handle (driver s))%nat).

End CensusRuntime.

End CensusApp.

(** ** [census_crud_ui.py]: [App] *)

Module App.

Record Person : Type := mkPerson {
  person_id : pyval;
  ea_code : pyval;
  structure_no : pyval;
  household_no : pyval;
  line_no : pyval;
  full_name : pyval;
  sex : pyval;
  date_of_birth : pyval;
  age_years : pyval;
  nationality : pyval;
  ethnicity : pyval;
  religion : pyval;
  marital_status : pyval
}.

Section AppRuntime.

Context {rt : Runtime}.

(** The local [to_int]: a [ValueError] becomes [None]. *)
Definition to_int (s : string) : pyval :=
  if truthy s then
    match int s with
    | Some n => VInt n
    | None => VNone
    end
  else VNone.

(** The local [to_date]: a [ValueError] becomes [None]. *)
Definition to_date (s : string) : pyval :=
  if truthy s then
    match strptime_ymd s with
    | Some d => d
    | None => VNone
    end
  else VNone.

Definition _read_person_from_form (vars : string → string) : Person :=
  {| person_id := to_int (vars "person_id");
     ea_code := or_None (vars "ea_code");
     structure_no := or_None (vars "structure_no");
     household_no := or_None (vars "household_no");
     line_no := to_int (vars "line_no");
     full_name := or_None (vars "full_name");
     sex := or_None (vars "sex");
     date_of_birth := to_date (vars "dob");
     age_years := to_int (vars "age_years");
     nationality := or_None (vars "nationality");
     ethnicity := or_None (vars "ethnicity");
     religion := or_None (vars "religion");
     marital_status := or_None (vars "marital_status") |}.

(** The argument list [sp_insert_person] passes to [INSERT_PERSON]. *)
Definition sp_insert_person_args (p : Person) : list OracleDB.proc_arg :=
  List.map OracleDB.ArgIn
    [ea_code p; structure_no p; household_no p; line_no p; full_name p;
     sex p; date_of_birth p; age_years p; nationality p; ethnicity p;
     religion p; marital_status p]
  ++ [OracleDB.ArgOutNumber].

Definition on_insert (db : bool) (vars : string → string)
    (reply : OracleDB.insert_error + Z) : list event :=
  if negb db then [Msg (showwarning "DB" "Not connected.")]
  else
    let p := _read_person_from_form vars in
    Callproc "INSERT_PERSON" (sp_insert_person_args p) ::
    match reply with
    | inl (OracleDB.BeforeCommit e) =>
        [Msg (showerror "Insert failed" e); Log ("Insert failed: " +:+ e)]
    | inl (OracleDB.AfterCommit e) =>
        [Commit; Msg (showerror "Insert failed" e); Log ("Insert failed: " +:+ e)]
    | inr new_id =>
        let msg := "Inserted person_id=" +:+ pretty new_id in
        [Commit; SetVar "person_id" (pretty new_id);
         Msg (showinfo "Insert" msg); Log msg]
    end.

End AppRuntime.

Record Session : Type := mkSession {
  db : option nat;
  driver : OracleDB.Driver
}.

(** [connect_db]: [port_var] is the [IntVar] ([None] when reading it
    raises); the new gateway is assigned over the old one. *)
Definition connect_db (port_var : option Z) (accepts : bool) (s : Session) : Session :=
  match port_var with
  | None => s
  | Some _ =>
      match OracleDB.__init__ accepts (driver s) with
      | (Some h, d) => mkSession (Some h) d
      | (None, d) => mkSession (db s) d
      end
  end.

Definition initial : Session := mkSession None (OracleDB.mkDriver ∅ 0).

End App.

(** ** More builtins *)

Module PyMore.

(** The coefficient of a printed number: the text before the exponent. *)
Fixpoint coefficient (s : string) : string :=
  match s with
  | "" => ""
  | String c s' =>
      if Ascii.eqb c "e" || Ascii.eqb c "E" then "" else String c (coefficient s')
  end.

Definition is_digit (c : ascii) : bool :=
  match digit_value c with
  | Some _ => true
  | None => false
  end.

Fixpoint has_digit (s : string) : bool :=
  match s with
  | "" => false
  | String c s' => is_digit c || has_digit s'
  end.

Fixpoint has_nonzero_digit (s : string) : bool :=
  match s with
  | "" => false
  | String c s' => (is_digit c && negb (Ascii.eqb c "0")) || has_nonzero_digit s'
  end.

(** [bool(v)]: [None], the empty text and zero are false. A printed number
    is zero when its coefficient has digits and all of them are [0]. *)
Definition bool (v : pyval) : bool :=
  match v with
  | VNone => false
  | VStr s => truthy s
  | VInt n => negb (n =? 0)
  | VNum printed =>
      negb (has_digit (coefficient printed)
            && negb (has_nonzero_digit (coefficient printed)))
  | VDate _ _ _ | VDateTime _ _ _ _ _ _ => true
  end.

(** [value or ''] *)
Definition or_empty (v : pyval) : pyval :=
  if bool v then v else VStr "".

(** [value.strftime('%Y-%m-%d')]: month and day on two digits; the year on
    four digits where the C library pads it ([padded_year]), as it stands
    otherwise. The two agree from the year 1000 on. *)
Definition strftime_ymd (padded_year : Datatypes.bool) (y m d : Z) : string :=
  (if padded_year then pad0 4 y else pretty y)
  +:+ "-" +:+ pad0 2 m +:+ "-" +:+ pad0 2 d.

End PyMore.

(** ** Queries: [OracleDB.execute_query] *)

Module Query.

(** A cursor after [execute]: its [description] ([None] when the statement
    returns no rows) and the rows it iterates over. *)
Record Cursor : Type := mkCursor {
  description : option (list string);
  rows : list (list pyval)
}.

(** The list comprehension over the cursor; [None] is the [IndexError] of a
    row shorter than the column list. *)
Fixpoint dicts (cols : list string) (rows : list (list pyval)) : option (list Row) :=
  match rows with
  | [] => Some []
  | r :: rows' =>
      d ← zip_dict cols r ∅;
      ds ← dicts cols rows';
      Some (d :: ds)
  end.

(** [execute_query]; [reply] is what [cur.execute] does: raise, or leave the
    cursor ready. *)
Definition execute_query {rt : Runtime} (reply : string + Cursor) : OracleDB.result (list Row) :=
  match reply with
  | inl e => OracleDB.Raised e
  | inr cur =>
      let cols :=
        match description cur with
        | Some (d :: ds) => List.map lower (d :: ds)
        | Some [] | None => []
        end in
      match dicts cols (rows cur) with
      | Some ds => OracleDB.Returned ds
      | None => OracleDB.Raised "tuple index out of range"
      end
  end.

End Query.

(** ** Sequences of operations on a grid *)

Module GridOps.

Inductive op : Type :=
| Load (rows : list Row)
| Filter (text : string)
| Click (i : nat)
| Reconfigure (new_columns : list string).

Section GridRuntime.

Context {rt : Runtime}.

Definition apply (self : DataTreeview.t) (o : op) : DataTreeview.t :=
  match o with
  | Load rows => DataTreeview.load_data rows self
  | Filter text => DataTreeview.set_filter text self
  | Click i => DataTreeview.click i self
  | Reconfigure new_columns => DataTreeview.reconfigure_columns new_columns self
  end.

(** A grid built with [cols] and then operated on. *)
Definition run (cols : list string) (ops : list op) : DataTreeview.t :=
  foldl apply (DataTreeview.__init__ cols) ops.

End GridRuntime.

End GridOps.

(** ** Sequences of connects and disconnects in [census_app.py] *)

Module CensusSessions.

Inductive action : Type :=
| Connect (port_var : string) (accepts : Datatypes.bool)
| Disconnect.

Section SessionRuntime.

Context {rt : Runtime}.

Definition step (s : CensusApp.Session) (a : action) : CensusApp.Session :=
  match a with
  | Connect port_var accepts => CensusApp.connect_db port_var accepts s
  | Disconnect => CensusApp.disconnect_db s
  end.

Definition run (actions : list action) : CensusApp.Session :=
  foldl step CensusApp.initial actions.

End SessionRuntime.

End CensusSessions.

(** ** Effects of the other handlers *)

Module Effect.

Inductive t : Type :=
| Show (m : message)
| AskYesNo (title text : string)
| CallProc (name : string) (args : list OracleDB.proc_arg)
| Execute (sql : string) (binds : Row)
| CommitTx
| LogLine (text : string)
| LogRetrieved (data : Row)
| LoadHouseholds.

(** The calls that reach the backend. *)
Definition reaches_backend (e : t) : Datatypes.bool :=
  match e with
  | CallProc _ _ | Execute _ _ | CommitTx | LoadHouseholds => true
  | Show _ | AskYesNo _ _ | LogLine _ | LogRetrieved _ => false
  end.

End Effect.

(** [var.set(text)] on one variable of a form. *)
Definition set_var (key text : string) (vars : string → string) : string → string :=
  fun k => if String.eqb k key then text else vars k.

(** ** [census_app.py]: retrieving a person, adding a household *)

Module CensusHandlers.

Import Effect.

(** The text [retrieve_person] puts into a form variable. *)
Definition display (padded_year : Datatypes.bool) (value : pyval) : string :=
  match value with
  | VNone => ""
  | VDate y m d | VDateTime y m d _ _ _ => PyMore.strftime_ymd padded_year y m d
  | _ => str value
  end.

(** The loop over [self.person_vars] that fills the form. *)
Definition fill_form (padded_year : Datatypes.bool) (data : Row)
    (vars : string → string) : string → string :=
  foldl (fun vars key => set_var key (display padded_year (row_get data key)) vars)
    vars CensusApp.person_vars.

(** [retrieve_person]: the effects and the form afterwards. [reply] is what
    [GET_PERSON_BY_ID] does, [int_error] the text of the [ValueError] that
    [int()] raises on the typed id. *)
Definition retrieve_person {rt : Runtime} (db : Datatypes.bool) (vars : string → string)
    (reply : string + OracleDB.Cursor) (padded_year : Datatypes.bool)
    (int_error : string) : list Effect.t * (string → string) :=
  if negb db
  then ([Show (showwarning "Not Connected" "Please connect to the database first")],
        vars)
  else
    let person_id := vars "person_id" in
    if negb (truthy person_id)
    then ([Show (showwarning "Input Required" "Please enter Person ID")], vars)
    else
      match int person_id with
      | None =>
          ([Show (showerror "Error" ("Failed to retrieve person: " +:+ int_error))],
           vars)
      | Some n =>
          let call :=
            CallProc "GET_PERSON_BY_ID" [OracleDB.ArgIn (VInt n); OracleDB.ArgOutCursor] in
          match OracleDB.sp_get_person_by_id reply with
          | OracleDB.Raised e =>
              ([call; Show (showerror "Error" ("Failed to retrieve person: " +:+ e))],
               vars)
          | OracleDB.Returned None =>
              ([call; Show (showinfo "Not Found" "Person not found")], vars)
          | OracleDB.Returned (Some data) =>
              if bool_decide (data = ∅)
              then ([call; Show (showinfo "Not Found" "Person not found")], vars)
              else ([call], fill_form padded_year data vars)
          end
      end.

(** What a retrieved cell must be for the filled form to be submitted again
    as it is: a number is an integer that [int()] reads back (or null), a date
    is a calendar date printed on four year digits (or null). *)
Definition number_cell (cell : option pyval) : Prop :=
  match cell with
  | None | Some VNone => True
  | Some (VInt n) => (String.length (pretty n) ≤ max_str_digits)%nat
  | Some _ => False
  end.

Definition date_cell (cell : option pyval) : Prop :=
  match cell with
  | None | Some VNone => True
  | Some (VDate y m d) | Some (VDateTime y m d _ _ _) =>
      valid_date y m d = true ∧ 1000 ≤ y
  | Some _ => False
  end.

(** The value such a cell stands for: a [datetime] counts for its date. *)
Definition kept_number (cell : option pyval) : pyval :=
  match cell with
  | Some (VInt n) => VInt n
  | _ => VNone
  end.

Definition kept_date (cell : option pyval) : pyval :=
  match cell with
  | Some (VDate y m d) | Some (VDateTime y m d _ _ _) => VDate y m d
  | _ => VNone
  end.







End CensusHandlers.

(** ** [census_crud_ui.py]: retrieve, update, delete *)

Module AppHandlers.

Import Effect.

(** [on_retrieve]: the seven variables it fills, the others are left as
    they are. A value that is not text is shown as [str()] prints it. *)
Definition fill_form (data : Row) (vars : string → string) : string → string :=
  let shown := fun key => str (PyMore.or_empty (OracleDB.get data key)) in
  set_var "locality_code" (shown "locality_code")
    (set_var "household_no" (shown "household_no")
      (set_var "structure_no" (shown "structure_no")
        (set_var "ea_code" (shown "ea_code")
          (set_var "age_years" (shown "age_years")
            (set_var "sex" (shown "sex")
              (set_var "full_name" (shown "full_name") vars)))))).

(** The variables [on_retrieve] sets, in the order it sets them. *)
Definition filled : list string :=
  ["full_name"; "sex"; "age_years"; "ea_code"; "structure_no"; "household_no";
   "locality_code"].

Section HandlerRuntime.

Context {rt : Runtime}.

Definition on_retrieve (db : Datatypes.bool) (vars : string → string)
    (reply : string + OracleDB.Cursor) (int_error : string)
    : list Effect.t * (string → string) :=
  if negb db then ([Show (showwarning "DB" "Not connected.")], vars)
  else
    let pid := vars "person_id" in
    if negb (truthy pid)
    then ([Show (showwarning "Retrieve" "Enter Person ID first.")], vars)
    else
      match int pid with
      | None =>
          ([Show (showerror "Retrieve failed" int_error);
            LogLine ("Retrieve failed: " +:+ int_error)], vars)
      | Some n =>
          let call :=
            CallProc "GET_PERSON_BY_ID" [OracleDB.ArgIn (VInt n); OracleDB.ArgOutCursor] in
          match OracleDB.sp_get_person_by_id reply with
          | OracleDB.Raised e =>
              ([call; Show (showerror "Retrieve failed" e);
                LogLine ("Retrieve failed: " +:+ e)], vars)
          | OracleDB.Returned None => ([call; LogLine "No record found."], vars)
          | OracleDB.Returned (Some data) =>
              if bool_decide (data = ∅)
              then ([call; LogLine "No record found."], vars)
              else ([call; LogRetrieved data], fill_form data vars)
          end
      end.

(** The argument list [sp_update_person] passes to [UPDATE_PERSON]. *)
Definition sp_update_person_args (p : App.Person) : list OracleDB.proc_arg :=
  List.map OracleDB.ArgIn
    [App.person_id p; App.full_name p; App.sex p; App.date_of_birth p;
     App.age_years p; App.nationality p; App.ethnicity p; App.religion p;
     App.marital_status p].

(** [on_update]; [reply] is what [UPDATE_PERSON] does: raise ([Some]) or
    return. *)
Definition on_update (db : Datatypes.bool) (vars : string → string)
    (reply : option string) : list Effect.t :=
  if negb db then [Show (showwarning "DB" "Not connected.")]
  else
    let p := App._read_person_from_form vars in
    if negb (PyMore.bool (App.person_id p))
    then [Show (showwarning "Update" "Enter Person ID to update.")]
    else
      CallProc "UPDATE_PERSON" (sp_update_person_args p) ::
      match reply with
      | Some e => [Show (showerror "Update failed" e); LogLine ("Update failed: " +:+ e)]
      | None =>
          [CommitTx; Show (showinfo "Update" "Updated successfully.");
           LogLine ("Updated person_id=" +:+ str (App.person_id p))]
      end.

(** [on_delete]; [confirmed] is the answer to the question asked. *)
Definition on_delete (db : Datatypes.bool) (vars : string → string)
    (confirmed : Datatypes.bool) (reply : option string) (int_error : string)
    : list Effect.t :=
  if negb db then [Show (showwarning "DB" "Not connected.")]
  else
    let pid := vars "person_id" in
    if negb (truthy pid)
    then [Show (showwarning "Delete" "Enter Person ID to delete.")]
    else
      AskYesNo "Confirm" ("Delete person_id=" +:+ pid +:+ "?") ::
      if negb confirmed then []
      else
        match int pid with
        | None =>
            [Show (showerror "Delete failed" int_error);
             LogLine ("Delete failed: " +:+ int_error)]
        | Some n =>
            CallProc "DELETE_PERSON" [OracleDB.ArgIn (VInt n)] ::
            match reply with
            | Some e =>
                [Show (showerror "Delete failed" e); LogLine ("Delete failed: " +:+ e)]
            | None =>
                [CommitTx; Show (showinfo "Delete" "Deleted successfully.");
                 LogLine ("Deleted person_id=" +:+ pid)]
            end
        end.

End HandlerRuntime.

End AppHandlers.

(** * Properties *)

(** ** Text *)

Section Text.

Lemma append_cons (c : ascii) (s1 s2 : string) :
  String c s1 +:+ s2 = String c (s1 +:+ s2).
Proof. reflexivity. Qed.

Lemma append_nil_l (s : string) : "" +:+ s = s.
Proof. reflexivity. Qed.

Lemma append_nil_r (s : string) : s +:+ "" = s.
Proof. induction s as [|c s IH]; [done | rewrite append_cons; congruence]. Qed.

Lemma append_assoc (s1 s2 s3 : string) : (s1 +:+ s2) +:+ s3 = s1 +:+ s2 +:+ s3.
Proof. induction s1 as [|c s1 IH]; [done | rewrite !append_cons; congruence]. Qed.

Lemma prefix_cons (c c' : ascii) (p s : string) :
  String.prefix (String c p) (String c' s) =
  if ascii_dec c c' then String.prefix p s else false.
Proof. reflexivity. Qed.

Lemma prefix_spec (p s : string) :
  String.prefix p s = true ↔ ∃ b, s = p +:+ b.
Proof.
  revert s. induction p as [|c p IH]; intros s.
  - split; [intros _; by exists s | by destruct s].
  - destruct s as [|c' s].
    + split; [done | intros [b Hb]; discriminate].
    + rewrite prefix_cons. destruct (ascii_dec c c') as [->|Hne].
      * rewrite IH. split; intros [b Hb]; exists b;
          rewrite ?append_cons in *; congruence.
      * split; [done | intros [b Hb]; rewrite append_cons in Hb; congruence].
Qed.

Lemma contains_cons (needle : string) (c : ascii) (hay : string) :
  contains needle (String c hay) =
  String.prefix needle (String c hay) || contains needle hay.
Proof. reflexivity. Qed.

Lemma contains_nil (needle : string) :
  contains needle "" = String.prefix needle "".
Proof. unfold contains. apply orb_false_r. Qed.

(** [needle in hay] holds exactly when [hay] splits around [needle]. *)
Lemma contains_spec (needle hay : string) :
  contains needle hay = true ↔ ∃ a b, hay = a +:+ needle +:+ b.
Proof.
  induction hay as [|c hay IH].
  - rewrite contains_nil, prefix_spec. split.
    + intros [b Hb]. by exists "", b.
    + intros [a [b Hab]]. destruct a; [by exists b | discriminate].
  - rewrite contains_cons, orb_true_iff, prefix_spec, IH. split.
    + intros [[b Hb] | [a [b Hab]]].
      * by exists "", b.
      * exists (String c a), b. rewrite append_cons. by rewrite Hab.
    + intros [a [b Hab]]. destruct a as [|c' a].
      * left. by exists b.
      * right. exists a, b. rewrite append_cons in Hab. congruence.
Qed.

Lemma truthy_false (s : string) : truthy s = false ↔ s = "".
Proof. by destruct s. Qed.

End Text.

(** ** The grid: filter, reconfiguration *)

Section Grid.

Import DataTreeview.

Context {rt : Runtime}.

Lemma filter_all {A} (f : A → bool) (l : list A) :
  (∀ x, f x = true) → List.filter f l = l.
Proof.
  intros Hf. induction l as [|x l IH]; simpl; [done |].
  by rewrite Hf, IH.
Qed.

Lemma row_matches_spec (term : string) (cols : list string) (row : Row) :
  row_matches term cols row = true ↔
  ∃ col, col ∈ cols ∧ ∃ a b, lower (str (row_get row col)) = a +:+ term +:+ b.
Proof.
  unfold row_matches. rewrite existsb_exists. split.
  - intros [col [Hin Hc]]. exists col. split; [by apply list_elem_of_In |].
    by apply contains_spec.
  - intros [col [Hin Hc]]. exists col. split; [by apply list_elem_of_In |].
    by apply contains_spec.
Qed.

Lemma set_filter_data (text : string) (self : t) :
  data (set_filter text self) = data self
  ∧ columns (set_filter text self) = columns self
  ∧ search_var (set_filter text self) = text.
Proof. done. Qed.

Lemma filtered_data_set_filter (text : string) (self : t) :
  filtered_data (set_filter text self) =
  if truthy (lower text)
  then List.filter (row_matches (lower text) (columns self)) (data self)
  else data self.
Proof. done. Qed.

(** C1, as the code has it: after [set_filter t] the tree shows the projection
    of the visible rows; a row is visible exactly when it is loaded and either
    [t] is empty or the lower-cased string form of one of the declared
    columns' values contains the lower-cased [t]; the visible rows keep the
    load order; the loaded row set is left as it was. *)
Theorem set_filter_visible (t0 : string) (self : t) :
  let view := set_filter t0 self in
  children (tree view) = List.map (row_values (columns self)) (filtered_data view)
  ∧ (∀ row, row ∈ filtered_data view ↔
       row ∈ data self ∧
       (t0 = "" ∨ ∃ col, col ∈ columns self ∧
          ∃ a b, lower (str (row_get row col)) = a +:+ lower t0 +:+ b))
  ∧ filtered_data view =
      List.filter (fun row => negb (truthy t0)
                              || row_matches (lower t0) (columns self) row) (data self)
  ∧ data view = data self.
Proof.
  intros view. split; [done |]. split; [| split; [| done]].
  - intros row. unfold view. rewrite filtered_data_set_filter, lower_truthy.
    destruct t0 as [|c t0]; simpl truthy; cbv iota.
    + tauto.
    + rewrite !list_elem_of_In, filter_In, row_matches_spec.
      split; intros [Hin Hm]; (split; [done |]).
      * by right.
      * by destruct Hm as [Hm | Hm].
  - unfold view. rewrite filtered_data_set_filter, lower_truthy.
    destruct t0 as [|c t0]; [| done].
    simpl. symmetry. by apply filter_all.
Qed.

(** C2: with the empty filter text the visible rows are the loaded rows, in
    load order, and the tree shows their projections in that order. *)
Theorem empty_filter_shows_all (R : list Row) (self : t) :
  let view := set_filter "" (load_data R self) in
  filtered_data view = R
  ∧ children (tree view) = List.map (row_values (columns self)) R
  ∧ data view = R.
Proof.
  intros view.
  assert (Hall : filtered_data view = R).
  { unfold view, filtered_data. simpl search_var. by rewrite lower_truthy. }
  split; [done |]. split; [| done].
  simpl. unfold filtered_data at 1. simpl search_var. by rewrite lower_truthy.
Qed.

(** C8: after the column list is replaced the row set is empty, the tree
    shows nothing under any filter text, nothing is selected, the export
    has nothing to write, and what a later load shows is that load alone. *)
Theorem reconfigure_columns_clears (new_columns : list string) (self : t) :
  let fresh := reconfigure_columns new_columns self in
  columns fresh = new_columns
  ∧ data fresh = []
  ∧ children (tree fresh) = []
  ∧ get_selected_row fresh = NoSelection
  ∧ (∀ text, filtered_data (set_filter text fresh) = []
             ∧ children (tree (set_filter text fresh)) = [])
  ∧ (∀ i, get_selected_row (click i fresh) = NoSelection)
  ∧ (∀ filename w,
       _export_csv fresh filename w =
       ([showwarning "Export" "No data to export"], w))
  ∧ (∀ rows, filtered_data (load_data rows fresh) = rows
             ∧ columns (load_data rows fresh) = new_columns).
Proof.
  simpl. repeat split.
  - unfold filtered_data. simpl. by destruct (truthy (lower text)).
  - unfold filtered_data. simpl. by destruct (truthy (lower text)).
  - unfold filtered_data. simpl search_var. by rewrite lower_truthy.
Qed.

(** With the empty filter a row is shown although no declared column
    contains the filter text: a grid without columns. This holds on every
    runtime. *)
Lemma set_filter_no_columns :
  let self := load_data [(∅ : Row)] (__init__ []) in
  let view := set_filter "" self in
  (∅ : Row) ∈ filtered_data view
  ∧ children (tree view) = [[]]
  ∧ ¬ ∃ col, col ∈ columns self
        ∧ contains (lower "") (lower (str (row_get ∅ col))) = true.
Proof.
  intros self view.
  assert (Hshown : filtered_data view = [∅]).
  { unfold view, self, filtered_data. simpl search_var. by rewrite lower_truthy. }
  split; [| split].
  - rewrite Hshown. apply list_elem_of_here.
  - unfold view, set_filter, _refresh_tree. simpl tree. simpl children.
    fold self. change (filtered_data _) with (filtered_data view) at 1.
    by rewrite Hshown.
  - intros [col [Hin _]]. by apply not_elem_of_nil in Hin.
Qed.

End Grid.

Section GridExamples.

Import DataTreeview.

#[local] Existing Instance ascii_runtime.

(** C1, the claim as worded fails on a grid without columns: with the empty
    filter the loaded row is shown, although no declared column contains the
    filter text. *)
Lemma set_filter_no_columns_counterexample :
  let self := load_data [(∅ : Row)] (__init__ []) in
  let view := set_filter "" self in
  (∅ : Row) ∈ filtered_data view
  ∧ children (tree view) = [[]]
  ∧ ¬ ∃ col, col ∈ columns self
        ∧ contains (lower "") (lower (str (row_get ∅ col))) = true.
Proof. exact set_filter_no_columns. Qed.

End GridExamples.

(** ** The [csv] writer and reader *)

Section CsvRoundTrip.

Import Csv.

Lemma join_fields_tail (fields : list string) (rec : string) (n : nat) :
  join_fields fields rec (S n) =
  (rec +:+ tail_repr fields, (S n + length fields)%nat).
Proof.
  revert rec n. induction fields as [|f fs IH]; intros rec n.
  - simpl. by rewrite append_nil_r, Nat.add_0_r.
  - simpl join_fields. rewrite IH. unfold join_append, field_repr.
    change (0 <? S n)%nat with true. cbv iota. simpl orb.
    rewrite !append_assoc. simpl length. f_equal. lia.
Qed.

Lemma join_fields_first (f : string) (fs : list string) :
  join_fields (f :: fs) "" 0 =
  (field_repr f +:+ tail_repr fs, S (length fs)).
Proof.
  simpl join_fields. rewrite join_fields_tail. unfold join_append, field_repr.
  change (0 <? 0)%nat with false. cbv iota. simpl orb.
  by rewrite !append_nil_l.
Qed.

Lemma field_repr_empty (f : string) : field_repr f = "" → f = "".
Proof.
  unfold field_repr. destruct (needs_quotes f); [discriminate | done].
Qed.

Lemma length_zero (s : string) : (String.length s =? 0)%nat = true ↔ s = "".
Proof. destruct s; simpl; [done | split; discriminate]. Qed.

Lemma append_empty (s1 s2 : string) : s1 +:+ s2 = "" → s1 = "" ∧ s2 = "".
Proof. destruct s1; [done | discriminate]. Qed.

(** The three shapes of a written record. *)
Lemma writerow_nil : writerow [] = lineterminator.
Proof. reflexivity. Qed.

Lemma writerow_sole_empty :
  writerow [""] = String quotechar (String quotechar lineterminator).
Proof. reflexivity. Qed.

Lemma writerow_fields (f : string) (fs : list string) :
  ¬ (f = "" ∧ fs = []) →
  writerow (f :: fs) = field_repr f +:+ tail_repr fs +:+ lineterminator.
Proof.
  intros Hne. unfold writerow. rewrite join_fields_first.
  change (0 <? S (length fs))%nat with true. rewrite andb_true_l.
  destruct (String.length (field_repr f +:+ tail_repr fs) =? 0)%nat eqn:Hlen.
  - apply length_zero, append_empty in Hlen. destruct Hlen as [Hf Hfs].
    apply field_repr_empty in Hf. destruct fs; [by destruct Hne | discriminate].
  - by rewrite append_assoc.
Qed.

(** *** Stepping the reader *)

Lemma read_from_cons (self : Reader) recs (c : ascii) (rest : string) :
  read_from self recs (String c rest) =
  match parse_process_char self c with
  | None => None
  | Some self1 =>
      if line_ends c rest
      then let self2 := parse_process_eol self1 in
           if bool_decide (state self2 = START_RECORD)
           then read_from parse_reset (recs ++ [fields self2]) rest
           else read_from self2 recs rest
      else read_from self1 recs rest
  end.
Proof. reflexivity. Qed.

Lemma line_ends_inside (c : ascii) (rest : string) :
  is_newline c = false → rest ≠ "" → line_ends c rest = false.
Proof.
  intros Hc Hrest. destruct rest as [|d rest]; [done |].
  unfold is_newline in Hc. apply orb_false_elim in Hc as [Hlf Hcr].
  unfold line_ends. by rewrite Hlf, Hcr.
Qed.

Lemma special_false (c : ascii) :
  special c = false →
  Ascii.eqb c delimiter = false ∧ Ascii.eqb c quotechar = false
  ∧ is_newline c = false.
Proof.
  unfold special. intros H.
  apply orb_false_elim in H as [H Hnl]. apply orb_false_elim in H as [Hd Hq].
  done.
Qed.

Lemma append_ne_empty_r (s1 s2 : string) : s2 ≠ "" → s1 +:+ s2 ≠ "".
Proof. intros H2 H. by apply append_empty in H as [_ ?]. Qed.

(** A step that stays on the line. *)
Lemma read_step (self self1 : Reader) recs (c : ascii) (rest : string) :
  parse_process_char self c = Some self1 →
  is_newline c = false → rest ≠ "" →
  read_from self recs (String c rest) = read_from self1 recs rest.
Proof.
  intros Hp Hc Hrest.
  by rewrite read_from_cons, Hp, line_ends_inside.
Qed.

(** Unquoted text is copied into the field. *)
Lemma read_plain (p : string) (b : string) fs recs (rest : string) :
  needs_quotes p = false → rest ≠ "" →
  read_from (mkReader IN_FIELD b fs) recs (p +:+ rest) =
  read_from (mkReader IN_FIELD (b +:+ p) fs) recs rest.
Proof.
  revert b. induction p as [|c p IH]; intros b Hp Hrest.
  - by rewrite append_nil_l, append_nil_r.
  - simpl in Hp. apply orb_false_elim in Hp as [Hc Hp].
    destruct (special_false c Hc) as (Hd & Hq & Hnl).
    rewrite append_cons.
    rewrite (read_step _ (mkReader IN_FIELD (b +:+ String c "") fs)).
    + rewrite IH by done. by rewrite append_assoc.
    + unfold parse_process_char. simpl state. by rewrite Hnl, Hd.
    + done.
    + by apply append_ne_empty_r.
Qed.

(** Quoted text is copied into the field, doubled quotes as one. *)
Lemma read_quoted (f : string) (b : string) fs recs (rest : string) :
  rest ≠ "" →
  read_from (mkReader IN_QUOTED_FIELD b fs) recs (copy_data f +:+ rest) =
  read_from (mkReader IN_QUOTED_FIELD (b +:+ f) fs) recs rest.
Proof.
  revert b. induction f as [|c f IH]; intros b Hrest.
  - by rewrite append_nil_l, append_nil_r.
  - assert (Hnext : copy_data f +:+ rest ≠ "") by by apply append_ne_empty_r.
    simpl copy_data. destruct (Ascii.eqb c quotechar) eqn:Hq.
    + apply Ascii.eqb_eq in Hq. subst c. rewrite !append_cons.
      rewrite (read_step _ (mkReader QUOTE_IN_QUOTED_FIELD b fs)); [| done..].
      rewrite (read_step _ (mkReader IN_QUOTED_FIELD
                              (b +:+ String quotechar "") fs)); [| done..].
      rewrite IH by done. by rewrite append_assoc.
    + rewrite append_cons, read_from_cons.
      unfold parse_process_char. simpl state. rewrite Hq.
      assert (Hgo : read_from (parse_add_char (mkReader IN_QUOTED_FIELD b fs) c
                                 IN_QUOTED_FIELD) recs (copy_data f +:+ rest)
                    = read_from (mkReader IN_QUOTED_FIELD (b +:+ String c f) fs)
                        recs rest).
      { unfold parse_add_char. simpl. rewrite IH by done.
        by rewrite append_assoc. }
      destruct (line_ends c (copy_data f +:+ rest)); [| done].
      by simpl.
Qed.

(** The carriage return of a line terminator does not end the line. *)
Lemma read_carriage_return (self self1 : Reader) recs (rest : string) :
  parse_process_char self CR = Some self1 →
  read_from self recs (String CR (String LF rest)) =
  read_from self1 recs (String LF rest).
Proof. intros Hp. by rewrite read_from_cons, Hp. Qed.

(** The line feed that closes a record. *)
Lemma read_line_feed fs recs (rest : string) :
  read_from (mkReader EAT_CRNL "" fs) recs (String LF rest) =
  read_from parse_reset (recs ++ [fs]) rest.
Proof.
  rewrite read_from_cons. by destruct rest.
Qed.

(** From the start of a field, the text of a field leaves the reader with
    that field in its buffer. *)
Lemma read_field_repr (st : ParserState) (f : string) done recs (rest : string) :
  st = START_RECORD ∨ st = START_FIELD → rest ≠ "" →
  ∃ st',
    read_from (mkReader st "" done) recs (field_repr f +:+ rest) =
    read_from (mkReader st' f done) recs rest
    ∧ (st' = IN_FIELD ∨ st' = QUOTE_IN_QUOTED_FIELD ∨ (st' = st ∧ f = "")).
Proof.
  intros Hst Hrest. unfold field_repr.
  destruct (needs_quotes f) eqn:Hq.
  - exists QUOTE_IN_QUOTED_FIELD. split; [| by right; left].
    rewrite append_cons, append_assoc.
    rewrite (read_step _ (mkReader IN_QUOTED_FIELD "" done)).
    + rewrite read_quoted by done. rewrite append_nil_l, append_cons.
      by rewrite (read_step _ (mkReader QUOTE_IN_QUOTED_FIELD f done)).
    + by destruct Hst as [-> | ->].
    + done.
    + apply append_ne_empty_r. done.
  - destruct f as [|c f].
    + exists st. split; [by rewrite append_nil_l | by right; right].
    + exists IN_FIELD. split; [| by left].
      simpl in Hq. apply orb_false_elim in Hq as [Hc Hf].
      destruct (special_false c Hc) as (Hd & Hqc & Hnl).
      rewrite append_cons.
      rewrite (read_step _ (mkReader IN_FIELD (String c "") done)).
      * by rewrite read_plain.
      * destruct Hst as [-> | ->]; unfold parse_process_char, start_field;
          simpl state; by rewrite Hnl, Hqc, Hd.
      * done.
      * by apply append_ne_empty_r.
Qed.

(** A delimiter saves the field. *)
Lemma read_delimiter (st : ParserState) (b : string) done recs (rest : string) :
  st = IN_FIELD ∨ st = QUOTE_IN_QUOTED_FIELD ∨ st = START_RECORD ∨ st = START_FIELD →
  rest ≠ "" →
  read_from (mkReader st b done) recs (String delimiter rest) =
  read_from (mkReader START_FIELD "" (done ++ [b])) recs rest.
Proof.
  intros Hst Hrest.
  apply read_step; [| done | done].
  by destruct Hst as [-> | [-> | [-> | ->]]].
Qed.

(** The line terminator saves the field and closes the record. *)
Lemma read_lineterminator (st : ParserState) (b : string) done recs (rest : string) :
  st = IN_FIELD ∨ st = QUOTE_IN_QUOTED_FIELD ∨ st = START_FIELD →
  read_from (mkReader st b done) recs (lineterminator +:+ rest) =
  read_from parse_reset (recs ++ [done ++ [b]]) rest.
Proof.
  intros Hst. unfold lineterminator. rewrite !append_cons, append_nil_l.
  rewrite (read_carriage_return _ (mkReader EAT_CRNL "" (done ++ [b]))).
  - apply read_line_feed.
  - by destruct Hst as [-> | [-> | ->]].
Qed.

Lemma read_fields (fs : list string) :
  ∀ (f : string) (st : ParserState) done recs (rest : string),
  st = START_RECORD ∨ st = START_FIELD →
  st = START_FIELD ∨ ¬ (f = "" ∧ fs = []) →
  read_from (mkReader st "" done) recs
    (field_repr f +:+ tail_repr fs +:+ lineterminator +:+ rest) =
  read_from parse_reset (recs ++ [done ++ f :: fs]) rest.
Proof.
  induction fs as [|g fs IH]; intros f st done recs rest Hst Hne.
  - simpl tail_repr. rewrite append_nil_l.
    destruct (read_field_repr st f done recs (lineterminator +:+ rest) Hst)
      as (st' & -> & Hst'); [done |].
    apply read_lineterminator.
    destruct Hst' as [-> | [-> | [-> ->]]]; [by left | by right; left |].
    right; right. destruct Hne as [-> | Hne]; [done | by destruct Hne].
  - simpl tail_repr. rewrite append_cons.
    destruct (read_field_repr st f done recs
                (String delimiter
                   ((field_repr g +:+ tail_repr fs) +:+ lineterminator +:+ rest))
                Hst) as (st' & -> & Hst'); [done |].
    assert (Hrest : (field_repr g +:+ tail_repr fs) +:+ lineterminator +:+ rest ≠ "").
    { by apply append_ne_empty_r. }
    rewrite read_delimiter; [| | done].
    + rewrite append_assoc, IH; [| by right | by left].
      by rewrite <- app_assoc.
    + destruct Hst' as [-> | [-> | [-> _]]]; [by left | by right; left |].
      destruct Hst as [-> | ->]; by repeat (try (left; done); right).
Qed.

(** One written record, read back, is that record. *)
Lemma read_record (fields : list string) recs (rest : string) :
  read_from parse_reset recs (writerow fields +:+ rest) =
  read_from parse_reset (recs ++ [fields]) rest.
Proof.
  destruct fields as [|f fs].
  - rewrite writerow_nil. unfold lineterminator.
    rewrite !append_cons, append_nil_l.
    rewrite (read_carriage_return _ (mkReader EAT_CRNL "" [])); [| done].
    apply read_line_feed.
  - destruct (decide (f = "" ∧ fs = [])) as [[-> ->] | Hne].
    + rewrite writerow_sole_empty, !append_cons.
      rewrite (read_step _ (mkReader IN_QUOTED_FIELD "" [])); [| done..].
      rewrite (read_step _ (mkReader QUOTE_IN_QUOTED_FIELD "" [])); [| done..].
      rewrite read_lineterminator; [done | by right; left].
    + rewrite writerow_fields by done. rewrite !append_assoc.
      apply (read_fields fs f START_RECORD [] recs rest); [by left | by right].
Qed.

(** Reading back what the writer wrote gives the records written, whatever
    the fields hold. *)
Lemma reader_writerows (records : list (list string)) recs :
  read_from parse_reset recs (writerows records) = Some (recs ++ records).
Proof.
  revert recs. induction records as [|r records IH]; intros recs.
  - simpl. by rewrite app_nil_r.
  - simpl writerows. rewrite read_record, IH. by rewrite <- app_assoc.
Qed.

Lemma reader_writerows_all (records : list (list string)) :
  reader (writerows records) = Some records.
Proof. unfold reader. by rewrite reader_writerows. Qed.

End CsvRoundTrip.

(** ** The export *)

Section ExportSink.

Import Csv DataTreeview.

(** A dict comprehension over a list of keys holds exactly those keys. *)
Lemma keyed_dict_lookup (g : string → pyval) (keys : list string) (acc : Row)
    (k : string) :
  foldl (fun acc key => <[key := g key]> acc) acc keys !! k =
  if decide (k ∈ keys) then Some (g k) else acc !! k.
Proof.
  revert acc. induction keys as [|c keys IH]; intros acc.
  - cbn [foldl]. destruct (decide (k ∈ [])) as [Hin | _]; [| done].
    by apply not_elem_of_nil in Hin.
  - cbn [foldl]. rewrite IH. destruct (decide (k ∈ keys)) as [Hin | Hnot].
    + by rewrite decide_True by by right.
    + destruct (decide (c = k)) as [-> | Hck].
      * rewrite lookup_insert_eq. by rewrite decide_True by by left.
      * rewrite lookup_insert_ne by done.
        rewrite decide_False; [done |].
        intros Hin. apply elem_of_cons in Hin as [-> | Hin]; done.
Qed.

Lemma keyed_dict_to_list (g : string → pyval) (keys : list string) :
  _dict_to_list keys (foldl (fun acc key => <[key := g key]> acc) ∅ keys)
  = Some (List.map g keys).
Proof.
  unfold _dict_to_list. rewrite decide_True.
  - f_equal. apply map_ext_in. intros k Hk. apply list_elem_of_In in Hk.
    unfold row_get. rewrite keyed_dict_lookup. by rewrite decide_True.
  - intros k Hk. apply elem_of_dom in Hk as [v Hv].
    rewrite keyed_dict_lookup in Hv. apply elem_of_list_to_set.
    destruct (decide (k ∈ keys)); [done | by rewrite lookup_empty in Hv].
Qed.

(** The text of the cells of a row under the declared columns. *)
Lemma writerow_filtered_row (cols : list string) (row : Row) :
  DictWriter_writerow cols (filtered_row cols row) =
  Some (writerow (List.map (fun col => field_text (row_get row col)) cols)).
Proof.
  unfold DictWriter_writerow, filtered_row.
  rewrite (keyed_dict_to_list (row_get row)). simpl.
  by rewrite map_map.
Qed.

Lemma writeheader_columns (cols : list string) :
  DictWriter_writeheader cols = Some (writerow cols).
Proof.
  unfold DictWriter_writeheader, DictWriter_writerow, header_dict.
  rewrite (keyed_dict_to_list VStr). simpl.
  rewrite map_map. simpl. by rewrite map_id.
Qed.

Lemma write_rows_all (cols : list string) (rows : list Row) (written : string) :
  write_rows cols rows written =
  (written +:+ writerows
     (List.map (fun row => List.map (fun col => field_text (row_get row col)) cols)
        rows), false).
Proof.
  revert written. induction rows as [|row rows IH]; intros written.
  - simpl. by rewrite append_nil_r.
  - simpl write_rows. rewrite writerow_filtered_row, IH.
    simpl. by rewrite append_assoc.
Qed.

(** The writer never raises on a table of the grid; the text is the
    header record followed by one record per loaded row. *)
Lemma write_csv_all (cols : list string) (rows : list Row) :
  write_csv cols rows =
  (writerows
     (cols :: List.map
        (fun row => List.map (fun col => field_text (row_get row col)) cols) rows),
   false).
Proof.
  unfold write_csv. rewrite writeheader_columns. by rewrite write_rows_all.
Qed.

(** C3: with no rows loaded the export shows the "No data to export"
    warning and returns: whatever the columns, the chosen destination and the
    file system, no file is created or changed. *)
Theorem export_empty_refused (cols : list string) (search : string)
    (tree0 : Treeview) (filename : string) (w : World) :
  _export_csv (mk cols search tree0 []) filename w =
  ([showwarning "Export" "No data to export"], w).
Proof. reflexivity. Qed.

(** C4: with rows loaded, a destination chosen and writable, the file holds
    the header record of the declared column names, in their order, then one
    record per loaded row, in order, each with one cell per declared column
    (the empty text where the row lacks the key); read back, the file gives
    those records: the same column order and row count. *)
Theorem export_writes_table (self : t) (filename : string) (w : World) :
  data self ≠ [] → filename ≠ "" → open_error w filename = None →
  let cells := fun row : Row =>
    List.map (fun col => field_text (row_get row col)) (columns self) in
  let text := writerows (columns self :: List.map cells (data self)) in
  _export_csv self filename w =
    ([showinfo "Export" ("Data exported to " +:+ filename)],
     mkWorld (<[filename := text]> (files w)) (open_error w))
  ∧ reader text = Some (columns self :: List.map cells (data self))
  ∧ (∀ records, reader text = Some records →
       head records = Some (columns self)
       ∧ length records = S (length (data self))
       ∧ Forall (fun record => length record = length (columns self)) records)
  ∧ (∀ (row : Row) col, row !! col = None → field_text (row_get row col) = "").
Proof.
  intros Hdata Hname Hopen cells text.
  assert (Hread : reader text = Some (columns self :: List.map cells (data self)))
    by apply reader_writerows_all.
  split; [| split; [done | split]].
  - unfold _export_csv. destruct (data self) as [|row rows] eqn:Hd; [done |].
    destruct filename as [|c filename]; [done |]. simpl truthy. cbv iota.
    by rewrite Hopen, write_csv_all.
  - intros records Hrecords. rewrite Hread in Hrecords.
    injection Hrecords as <-. split; [done |]. split.
    + simpl. by rewrite length_map.
    + constructor; [done |]. apply Forall_forall. intros record Hin.
      apply list_elem_of_In, in_map_iff in Hin as [row [<- _]].
      unfold cells. by rewrite length_map.
  - intros row col Hnone. unfold row_get. by rewrite Hnone.
Qed.

(** C9: the export writes the whole loaded row set, whatever the filter
    text. The dialogs and the file system after the export are the same for
    any two filter texts, and the same as without a filter; and with rows
    loaded and a destination that is chosen and can be written, the file then
    holds the header record and one record for every loaded row, in load
    order, the rows that the filter hides included: read back, it gives the
    header and the cells of every loaded row. *)
Theorem export_ignores_filter {rt : Runtime} (self : t) (t1 t2 : string)
    (filename : string) (w : World) :
  let cells := fun row : Row =>
    List.map (fun col => field_text (row_get row col)) (columns self) in
  let full := writerows (columns self :: List.map cells (data self)) in
  _export_csv (set_filter t1 self) filename w =
  _export_csv (set_filter t2 self) filename w
  ∧ _export_csv (set_filter t1 self) filename w = _export_csv self filename w
  ∧ (data self ≠ [] → filename ≠ "" → open_error w filename = None →
     _export_csv (set_filter t1 self) filename w =
       ([showinfo "Export" ("Data exported to " +:+ filename)],
        mkWorld (<[filename := full]> (files w)) (open_error w))
     ∧ files (snd (_export_csv (set_filter t1 self) filename w)) !! filename
       = Some full
     ∧ reader full = Some (columns self :: List.map cells (data self))
     ∧ ∀ row, row ∈ data self →
         ∃ records, reader full = Some records
                    ∧ length records = S (length (data self))
                    ∧ cells row ∈ records).
Proof.
  intros cells full. split; [done |]. split; [done |].
  intros Hdata Hname Hopen.
  assert (Hread : reader full = Some (columns self :: List.map cells (data self)))
    by apply reader_writerows_all.
  assert (Hexport : _export_csv (set_filter t1 self) filename w =
            ([showinfo "Export" ("Data exported to " +:+ filename)],
             mkWorld (<[filename := full]> (files w)) (open_error w))).
  { unfold _export_csv. simpl data. simpl columns.
    destruct (data self) as [|row rows] eqn:Hd; [done |].
    destruct filename as [|c filename]; [done |]. simpl truthy. cbv iota.
    by rewrite Hopen, write_csv_all. }
  split; [exact Hexport |]. split; [| split; [exact Hread |]].
  - rewrite Hexport. simpl. by rewrite lookup_insert_eq.
  - intros row Hrow. eexists. split; [exact Hread |]. split.
    + simpl. by rewrite length_map.
    + apply list_elem_of_further. apply list_elem_of_In, in_map.
      by apply list_elem_of_In.
Qed.

End ExportSink.

(** ** Form coercions of the two insert paths *)

Section Forms.

Import OracleDB.

Context {rt : Runtime}.

Lemma int_empty : int "" = None.
Proof. by rewrite int_ascii. Qed.


Lemma coerce_line_no (text : string) :
  CensusApp.coerce "line_no" text =
  if truthy text then
    match int text with
    | Some n => inr (VInt n)
    | None => inl (showwarning "Invalid Number" "line_no must be a number")
    end
  else inr VNone.
Proof. by destruct text. Qed.

Lemma coerce_age_years (text : string) :
  CensusApp.coerce "age_years" text =
  if truthy text then
    match int text with
    | Some n => inr (VInt n)
    | None => inl (showwarning "Invalid Number" "age_years must be a number")
    end
  else inr VNone.
Proof. by destruct text. Qed.

Lemma coerce_date_of_birth (text : string) :
  CensusApp.coerce "date_of_birth" text =
  if truthy text then
    match strptime_ymd text with
    | Some d => inr d
    | None => inl (showwarning "Invalid Date" "Date must be in YYYY-MM-DD format")
    end
  else inr VNone.
Proof. by destruct text. Qed.

(** The loop of [insert_person] unrolled over the thirteen form variables:
    only [line_no], [date_of_birth] and [age_years] can stop it, in that
    order. *)
Lemma insert_person_unfold (vars : string → string) (reply : insert_error + Z) :
  CensusApp.insert_person true vars reply =
  match CensusApp.coerce "line_no" (vars "line_no") with
  | inl m => [Msg m]
  | inr ln =>
  match CensusApp.coerce "date_of_birth" (vars "date_of_birth") with
  | inl m => [Msg m]
  | inr dob =>
  match CensusApp.coerce "age_years" (vars "age_years") with
  | inl m => [Msg m]
  | inr age =>
      Callproc "INSERT_PERSON"
        [ArgIn (or_None (vars "ea_code")); ArgIn (or_None (vars "structure_no"));
         ArgIn (or_None (vars "household_no")); ArgIn ln;
         ArgIn (or_None (vars "full_name")); ArgIn (or_None (vars "sex"));
         ArgIn dob; ArgIn age;
         ArgIn (or_None (vars "nationality")); ArgIn (or_None (vars "ethnicity"));
         ArgIn (or_None (vars "religion")); ArgIn (or_None (vars "marital_status"));
         ArgOutNumber] ::
      match reply with
      | inl (BeforeCommit e) =>
          [Msg (showerror "Error" ("Failed to insert person: " +:+ e))]
      | inl (AfterCommit e) =>
          [Commit; Msg (showerror "Error" ("Failed to insert person: " +:+ e))]
      | inr new_id =>
          [Commit; SetVar "person_id" (pretty new_id);
           Msg (showinfo "Success" ("Person inserted with ID: " +:+ pretty new_id));
           LoadPersons]
      end
  end end end.
Proof.
  unfold CensusApp.insert_person, CensusApp.person_vars. simpl negb. cbv iota.
  cbn [CensusApp.collect].
  remember (CensusApp.coerce "line_no" (vars "line_no")) as c1 eqn:E1.
  remember (CensusApp.coerce "date_of_birth" (vars "date_of_birth")) as c2 eqn:E2.
  remember (CensusApp.coerce "age_years" (vars "age_years")) as c3 eqn:E3.
  clear E1 E2 E3.
  repeat match goal with
  | |- context [CensusApp.coerce ?k ?v] =>
      change (CensusApp.coerce k v) with (@inr message pyval (or_None v))
  end.
  cbv iota.
  destruct c1 as [m1 | ln]; [reflexivity |].
  destruct c2 as [m2 | dob]; [reflexivity |].
  destruct c3 as [m3 | age]; [reflexivity |].
  reflexivity.
Qed.

(** The numeric coercion shared by the two paths once the text is accepted:
    the local [to_int] of the form reader. *)
Lemma to_int_cases :
  App.to_int "" = VNone
  ∧ (∀ s n, int s = Some n → App.to_int s = VInt n)
  ∧ (∀ s, int s = None → App.to_int s = VNone).
Proof.
  split; [done |]. split.
  - intros s n Hs. unfold App.to_int.
    destruct s; [rewrite int_empty in Hs; discriminate |].
    simpl truthy. cbv iota. by rewrite Hs.
  - intros s Hs. unfold App.to_int. destruct (truthy s); [| done]. by rewrite Hs.
Qed.

Lemma truthy_true (s : string) : s ≠ "" → truthy s = true.
Proof. by destruct s. Qed.

(** The trace of [insert_person] in terms of the three checked texts. *)
Lemma insert_person_cases (vars : string → string) (reply : insert_error + Z) :
  CensusApp.insert_person true vars reply =
  if truthy (vars "line_no") && bool_decide (int (vars "line_no") = None)
  then [Msg (showwarning "Invalid Number" "line_no must be a number")]
  else if truthy (vars "date_of_birth")
          && bool_decide (strptime_ymd (vars "date_of_birth") = None)
  then [Msg (showwarning "Invalid Date" "Date must be in YYYY-MM-DD format")]
  else if truthy (vars "age_years") && bool_decide (int (vars "age_years") = None)
  then [Msg (showwarning "Invalid Number" "age_years must be a number")]
  else
    Callproc "INSERT_PERSON"
      [ArgIn (or_None (vars "ea_code")); ArgIn (or_None (vars "structure_no"));
       ArgIn (or_None (vars "household_no")); ArgIn (App.to_int (vars "line_no"));
       ArgIn (or_None (vars "full_name")); ArgIn (or_None (vars "sex"));
       ArgIn (App.to_date (vars "date_of_birth"));
       ArgIn (App.to_int (vars "age_years"));
       ArgIn (or_None (vars "nationality")); ArgIn (or_None (vars "ethnicity"));
       ArgIn (or_None (vars "religion")); ArgIn (or_None (vars "marital_status"));
       ArgOutNumber] ::
    match reply with
    | inl (BeforeCommit e) =>
        [Msg (showerror "Error" ("Failed to insert person: " +:+ e))]
    | inl (AfterCommit e) =>
        [Commit; Msg (showerror "Error" ("Failed to insert person: " +:+ e))]
    | inr new_id =>
        [Commit; SetVar "person_id" (pretty new_id);
         Msg (showinfo "Success" ("Person inserted with ID: " +:+ pretty new_id));
         LoadPersons]
    end.
Proof.
  rewrite insert_person_unfold, coerce_line_no, coerce_date_of_birth,
    coerce_age_years.
  unfold App.to_int, App.to_date.
  destruct (truthy (vars "line_no")), (int (vars "line_no"));
    destruct (truthy (vars "date_of_birth")), (strptime_ymd (vars "date_of_birth"));
    destruct (truthy (vars "age_years")), (int (vars "age_years"));
    reflexivity.
Qed.








(** *** Dates *)

Lemma days_in_month_le (y m : Z) : days_in_month y m ≤ 31.
Proof.
  unfold days_in_month.
  repeat match goal with |- context [if ?b then _ else _] => destruct b end; lia.
Qed.

(** *** Text in exactly the [YYYY-MM-DD] format *)

Lemma digit_value_range (c : ascii) (v : Z) :
  digit_value c = Some v → 0 ≤ v ≤ 9.
Proof.
  unfold digit_value.
  destruct ((48 <=? N_of_ascii c)%N && (N_of_ascii c <=? 57)%N) eqn:Hc;
    [| discriminate].
  apply andb_true_iff in Hc as [Hlo Hhi].
  apply N.leb_le in Hlo. apply N.leb_le in Hhi. intros [= <-]. lia.
Qed.

Lemma digit_in_value (lo hi : Z) (c : ascii) (v : Z) :
  digit_value c = Some v →
  digit_in lo hi c = if (lo <=? v) && (v <=? hi) then Some v else None.
Proof. intros Hc. unfold digit_in. by rewrite Hc. Qed.

Lemma digit_in_any (c : ascii) (v : Z) :
  digit_value c = Some v → digit_in 0 9 c = Some v.
Proof.
  intros Hc. rewrite (digit_in_value _ _ _ _ Hc).
  apply digit_value_range in Hc.
  by rewrite (proj2 (Z.leb_le 0 v)), (proj2 (Z.leb_le v 9)) by lia.
Qed.

(** A digit is neither the dash nor the space of the format. *)
Lemma literal_digit {A} (ch c : ascii) (v : Z) (k : string → option A)
    (rest : string) :
  digit_value ch = None → digit_value c = Some v →
  literal ch k (String c rest) = None.
Proof.
  intros Hch Hc. unfold literal.
  destruct (Ascii.eqb ch c) eqn:Heq; [| done].
  apply Ascii.eqb_eq in Heq. congruence.
Qed.

Ltac split_digit v H :=
  let Hv := fresh "Hv" in
  assert (Hv : v = 0 ∨ v = 1 ∨ v = 2 ∨ v = 3 ∨ v = 4 ∨ v = 5 ∨ v = 6
               ∨ v = 7 ∨ v = 8 ∨ v = 9) by (apply digit_value_range in H; lia);
  destruct Hv as [-> | [-> | [-> | [-> | [-> | [-> | [-> | [-> | [-> | ->]]]]]]]]].

Lemma valid_date_bounds (y m d : Z) :
  valid_date y m d = true → 1 ≤ y ≤ 9999 ∧ 1 ≤ m ≤ 12 ∧ 1 ≤ d ≤ 31.
Proof.
  unfold valid_date. intros Hv.
  repeat (apply andb_true_iff in Hv as [Hv ?]).
  pose proof (days_in_month_le y m). lia.
Qed.

(** [%m] on two digits: the month they spell, when there is such a month. *)
Lemma directive_m_exact {A} (k : Z → string → option A) (m1 m2 : ascii)
    (e f : Z) (rest : string) :
  digit_value m1 = Some e → digit_value m2 = Some f →
  (∀ n, k n (String m2 rest) = None) →
  first_match directive_m k (String m1 (String m2 rest)) =
  if (1 <=? 10 * e + f) && (10 * e + f <=? 12) then k (10 * e + f) rest else None.
Proof.
  intros H1 H2 Hk.
  cbn [first_match directive_m two_digits one_digit].
  rewrite !(digit_in_value _ _ m1 e H1), !(digit_in_value _ _ m2 f H2).
  split_digit e H1; split_digit f H2; cbn; rewrite ?Hk;
    try reflexivity;
    match goal with |- context [k ?n rest] => by destruct (k n rest) end.
Qed.

(** [%d] on the last two digits, followed by the end-of-text and calendar
    checks: the day they spell, when the month has such a day. *)
Lemma directive_d_exact (y m : Z) (d1 d2 : ascii) (g h : Z) :
  digit_value d1 = Some g → digit_value d2 = Some h →
  match first_match directive_d (fun d rest' => Some (y, m, d, rest'))
          (String d1 (String d2 "")) with
  | Some (y', m', d', "") =>
      if valid_date y' m' d' then Some (VDate y' m' d') else None
  | _ => None
  end =
  if valid_date y m (10 * g + h) then Some (VDate y m (10 * g + h)) else None.
Proof.
  intros H1 H2.
  cbn [first_match directive_d two_digits one_digit].
  rewrite !(digit_in_value _ _ d1 g H1), !(digit_in_value _ _ d2 h H2).
  rewrite (literal_digit " " d1 g) by done.
  split_digit g H1; split_digit h H2; cbn;
    try reflexivity;
    match goal with
    | |- None = (if valid_date y m ?d then _ else _) =>
        destruct (valid_date y m d) eqn:Hv;
          [apply valid_date_bounds in Hv; lia | reflexivity]
    end.
Qed.

(** A digit is an ASCII character, and so is the text in exactly the
    [YYYY-MM-DD] format. *)
Lemma digit_is_ascii (c : ascii) (v : Z) :
  digit_value c = Some v → (N_of_ascii c <? 128)%N = true.
Proof.
  unfold digit_value.
  destruct ((48 <=? N_of_ascii c)%N && (N_of_ascii c <=? 57)%N) eqn:Hc;
    [| discriminate].
  apply andb_true_iff in Hc as [_ Hhi]. apply N.leb_le in Hhi.
  intros _. apply N.ltb_lt. lia.
Qed.

Lemma is_ascii_YYYY_MM_DD (text : string) (y m d : Z) :
  YYYY_MM_DD text = Some (y, m, d) → is_ascii text = true.
Proof.
  unfold YYYY_MM_DD.
  destruct text as [|y1 [|y2 [|y3 [|y4 [|dash1 [|m1 [|m2 [|dash2 [|d1 [|d2 [|? ?]]]]]]]]]]];
    try discriminate.
  destruct (Ascii.eqb dash1 "-") eqn:Hd1; [| discriminate].
  destruct (Ascii.eqb dash2 "-") eqn:Hd2; [| discriminate].
  apply Ascii.eqb_eq in Hd1. apply Ascii.eqb_eq in Hd2. subst dash1 dash2.
  simpl andb. cbv iota.
  destruct (digit_value y1) as [a|] eqn:Ha; [| discriminate].
  destruct (digit_value y2) as [b|] eqn:Hb; [| discriminate].
  destruct (digit_value y3) as [c|] eqn:Hc; [| discriminate].
  destruct (digit_value y4) as [d0|] eqn:Hd; [| discriminate].
  destruct (digit_value m1) as [e|] eqn:He; [| discriminate].
  destruct (digit_value m2) as [f|] eqn:Hf; [| discriminate].
  destruct (digit_value d1) as [g|] eqn:Hg; [| discriminate].
  destruct (digit_value d2) as [h|] eqn:Hh; [| discriminate].
  intros _. cbn [is_ascii].
  rewrite (digit_is_ascii _ _ Ha), (digit_is_ascii _ _ Hb),
    (digit_is_ascii _ _ Hc), (digit_is_ascii _ _ Hd), (digit_is_ascii _ _ He),
    (digit_is_ascii _ _ Hf), (digit_is_ascii _ _ Hg), (digit_is_ascii _ _ Hh).
  reflexivity.
Qed.

(** On ASCII text in exactly the [YYYY-MM-DD] format the parser gives the
    date it spells, when the calendar has that date, and rejects it
    otherwise. *)
Lemma ascii_strptime_exact (text : string) (y m d : Z) :
  YYYY_MM_DD text = Some (y, m, d) →
  ascii_strptime_ymd text =
  if valid_date y m d then Some (VDate y m d) else None.
Proof.
  unfold YYYY_MM_DD.
  destruct text as [|y1 [|y2 [|y3 [|y4 [|dash1 [|m1 [|m2 [|dash2 [|d1 [|d2 [|? ?]]]]]]]]]]];
    try discriminate.
  destruct (Ascii.eqb dash1 "-") eqn:Hd1; [| discriminate].
  destruct (Ascii.eqb dash2 "-") eqn:Hd2; [| discriminate].
  apply Ascii.eqb_eq in Hd1. apply Ascii.eqb_eq in Hd2. subst dash1 dash2.
  simpl andb. cbv iota.
  destruct (digit_value y1) as [a|] eqn:Ha; [| discriminate].
  destruct (digit_value y2) as [b|] eqn:Hb; [| discriminate].
  destruct (digit_value y3) as [c|] eqn:Hc; [| discriminate].
  destruct (digit_value y4) as [d0|] eqn:Hd; [| discriminate].
  destruct (digit_value m1) as [e|] eqn:He; [| discriminate].
  destruct (digit_value m2) as [f|] eqn:Hf; [| discriminate].
  destruct (digit_value d1) as [g|] eqn:Hg; [| discriminate].
  destruct (digit_value d2) as [h|] eqn:Hh; [| discriminate].
  intros [= <- <- <-].
  unfold ascii_strptime_ymd, match_format, directive_Y, two_digits.
  rewrite (digit_in_any _ _ Ha), (digit_in_any _ _ Hb),
    (digit_in_any _ _ Hc), (digit_in_any _ _ Hd).
  cbn [literal]. change (Ascii.eqb "-" "-") with true. cbv iota.
  rewrite (directive_m_exact _ m1 m2 e f _ He Hf).
  2: { intros n. by apply (literal_digit "-" m2 f). }
  replace (100 * (10 * a + b) + (10 * c + d0))
    with (1000 * a + 100 * b + 10 * c + d0) by lia.
  destruct ((1 <=? 10 * e + f) && (10 * e + f <=? 12)) eqn:Hm.
  - cbn [literal]. change (Ascii.eqb "-" "-") with true. cbv iota.
    apply directive_d_exact; done.
  - destruct (valid_date _ (10 * e + f) _) eqn:Hv; [| done].
    apply valid_date_bounds in Hv. apply andb_false_iff in Hm as [Hm | Hm];
      apply Z.leb_gt in Hm; lia.
Qed.

(** Text in exactly the [YYYY-MM-DD] format parses to the date it spells,
    when the calendar has that date, and is rejected otherwise. *)
Lemma strptime_exact (text : string) (y m d : Z) :
  YYYY_MM_DD text = Some (y, m, d) →
  strptime_ymd text = if valid_date y m d then Some (VDate y m d) else None.
Proof.
  intros Hspell. rewrite strptime_ymd_ascii by by eapply is_ascii_YYYY_MM_DD.
  by apply ascii_strptime_exact.
Qed.

(** *** Dates printed by [isoformat] *)

Lemma length_append (s1 s2 : string) :
  String.length (s1 +:+ s2) = (String.length s1 + String.length s2)%nat.
Proof.
  induction s1 as [|c s1 IH]; [done |].
  rewrite append_cons. simpl. by rewrite IH.
Qed.

Lemma zeros_snoc (n : nat) : zeros n +:+ "0" = String "0" (zeros n).
Proof.
  induction n as [|n IH]; [done |].
  simpl zeros. rewrite append_cons. by rewrite IH.
Qed.

Lemma digits_zero (w : nat) : digits w 0 = zeros w.
Proof.
  induction w as [|w IH]; [done |].
  simpl digits. change (0 / 10)%N with 0%N. rewrite IH.
  change (String (pretty_N_char (0 mod 10)) "") with "0".
  apply zeros_snoc.
Qed.

(** The digits [pretty] prints for a number below [10 ^ w] are its [w] low
    digits without the leading zeros. *)
Lemma pretty_N_go_digits (w : nat) (n : N) :
  (n < 10 ^ N.of_nat w)%N →
  ∃ t, (∀ s, pretty_N_go n s = t +:+ s)
       ∧ (String.length t ≤ w)%nat
       ∧ zeros (w - String.length t) +:+ t = digits w n.
Proof.
  revert n. induction w as [|w IH]; intros n Hn.
  - assert (n = 0%N) as -> by (simpl in Hn; lia).
    exists "". split; [intros s; by rewrite pretty_N_go_0 | done].
  - destruct (decide (n = 0%N)) as [-> | Hpos].
    + exists "". split; [intros s; by rewrite pretty_N_go_0 |].
      split; [simpl; lia |].
      rewrite digits_zero. change (String.length "") with 0%nat.
      by rewrite Nat.sub_0_r, append_nil_r.
    + destruct (IH (n / 10)%N) as (t & Hgo & Hlen & Hpad).
      { rewrite Nat2N.inj_succ, N.pow_succ_r' in Hn.
        apply N.Div0.div_lt_upper_bound. lia. }
      exists (t +:+ String (pretty_N_char (n mod 10)) "").
      split; [| split].
      * intros s. rewrite pretty_N_go_step by lia.
        by rewrite Hgo, append_assoc.
      * rewrite length_append. simpl. lia.
      * rewrite length_append. simpl String.length.
        replace (S w - (String.length t + 1))%nat
          with (w - String.length t)%nat by lia.
        simpl digits. by rewrite <- Hpad, append_assoc.
Qed.

(** Zero padding to [w] characters prints the [w] low digits. *)
Lemma pad0_digits (w : nat) (y : Z) :
  (1 ≤ w)%nat → 0 ≤ y < 10 ^ Z.of_nat w →
  pad0 w y = digits w (Z.to_N y).
Proof.
  intros Hw Hy. unfold pad0. destruct y as [|p|p]; [| | lia].
  - change (pretty 0) with "0". change (Z.to_N 0) with 0%N.
    rewrite digits_zero. destruct w as [|w]; [lia |].
    simpl String.length. replace (S w - 1)%nat with w by lia.
    apply zeros_snoc.
  - change (pretty (Z.pos p)) with (pretty_N_go (N.pos p) "").
    change (Z.to_N (Z.pos p)) with (N.pos p).
    destruct (pretty_N_go_digits w (N.pos p)) as (t & Hgo & _ & Hpad).
    { apply N2Z.inj_lt. rewrite N2Z.inj_pow, nat_N_Z. simpl Z.of_N. lia. }
    by rewrite Hgo, append_nil_r.
Qed.

Lemma digit_value_pretty_char (k : N) :
  (k < 10)%N → digit_value (pretty_N_char k) = Some (Z.of_N k).
Proof.
  intros Hk.
  assert (k = 0 ∨ k = 1 ∨ k = 2 ∨ k = 3 ∨ k = 4 ∨ k = 5 ∨ k = 6 ∨ k = 7
          ∨ k = 8 ∨ k = 9)%N as Hcases by lia.
  by destruct Hcases as [-> | [-> | [-> | [-> | [-> | [-> | [-> | [-> | [-> | ->]]]]]]]]].
Qed.

Lemma digit_value_low_digit (n : N) :
  digit_value (pretty_N_char (n mod 10)) = Some (Z.of_N n mod 10).
Proof.
  rewrite digit_value_pretty_char by (apply N.mod_upper_bound; lia).
  by rewrite N2Z.inj_mod.
Qed.

(** The text [isoformat] prints for a date is in exactly the [YYYY-MM-DD]
    format and spells that date. *)
Lemma isoformat_spells (y m d : Z) :
  0 ≤ y ≤ 9999 → 0 ≤ m ≤ 99 → 0 ≤ d ≤ 99 →
  YYYY_MM_DD (isoformat y m d) = Some (y, m, d).
Proof.
  intros Hy Hm Hd. unfold isoformat.
  rewrite (pad0_digits 4 y), (pad0_digits 2 m), (pad0_digits 2 d)
    by (try (simpl; lia); lia).
  cbn [digits]. repeat (progress (rewrite ?append_nil_l, ?append_cons)).
  unfold YYYY_MM_DD. change (Ascii.eqb "-" "-") with true. simpl andb. cbv iota.
  rewrite !digit_value_low_digit, !N2Z.inj_div, !Z2N.id by lia.
  change (Z.of_N 10) with 10.
  repeat match goal with
  | |- Some _ = Some _ => f_equal
  | |- (_, _) = (_, _) => apply pair_equal_spec; split
  end; Z.div_mod_to_equations; lia.
Qed.

(** A date printed as [YYYY-MM-DD] parses back to itself. *)
Lemma strptime_isoformat (y m d : Z) :
  valid_date y m d = true →
  strptime_ymd (isoformat y m d) = Some (VDate y m d).
Proof.
  intros Hv. rewrite (strptime_exact _ y m d), Hv; [done |].
  apply valid_date_bounds in Hv. apply isoformat_spells; lia.
Qed.




End Forms.

Section FormsExamples.

Import OracleDB.

#[local] Existing Instance ascii_runtime.



End FormsExamples.

(** ** Sessions *)

Section Sessions.

Import OracleDB.

Context {rt : Runtime}.

Lemma census_initial_single_session : CensusApp.single_session CensusApp.initial.
Proof. split; [intros h Hh; by apply not_elem_of_empty in Hh | done]. Qed.

(** Closing what [self.db] holds leaves no session live. *)
Lemma close_prior_none_live (s : CensusApp.Session) :
  CensusApp.single_session s →
  live (match CensusApp.db s with
        | Some h => close h (CensusApp.driver s)
        | None => CensusApp.driver s
        end) = ∅.
Proof.
  intros [Hlive _]. apply set_eq. intros h.
  split; [| intros Hh; by apply not_elem_of_empty in Hh].
  destruct (CensusApp.db s) as [h0|] eqn:Hdb.
  - simpl. intros Hh. apply elem_of_difference in Hh as [Hh Hn].
    specialize (Hlive h Hh). injection Hlive as ->.
    by apply not_elem_of_singleton in Hn.
  - intros Hh. specialize (Hlive h Hh). discriminate.
Qed.

(** In [census_app.py] the prior session is closed before the new one is
    opened: at most one session is live after [connect_db], whatever the
    port text and the driver do, and the handle held before is not live. *)
Lemma census_connect_db_single_session (port_var : string) (accepts : bool)
    (s : CensusApp.Session) :
  CensusApp.single_session s →
  CensusApp.single_session (CensusApp.connect_db port_var accepts s)
  ∧ (∀ h, CensusApp.db s = Some h →
       h ∉ live (CensusApp.driver (CensusApp.connect_db port_var accepts s))).
Proof.
  intros Hs. pose proof (close_prior_none_live s Hs) as Hnone.
  destruct Hs as [Hlive Hfresh]. unfold CensusApp.connect_db.
  set (d1 := match CensusApp.db s with
             | Some h => close h (CensusApp.driver s)
             | None => CensusApp.driver s
             end) in *.
  assert (Hnext : next_handle d1 = next_handle (CensusApp.driver s)).
  { unfold d1. by destruct (CensusApp.db s). }
  unfold CensusApp.single_session.
  destruct (int port_var) as [port|]; [destruct accepts |]; simpl.
  - rewrite Hnone, Hnext, (right_id_L ∅ (∪)). split; [split |]; simpl.
    + intros h Hh. f_equal. by apply elem_of_singleton in Hh.
    + intros h [= <-]. lia.
    + intros h Hdb Hh. specialize (Hfresh h Hdb).
      apply elem_of_singleton in Hh. lia.
  - rewrite Hnone. split; [split |]; simpl.
    + intros h Hh. by apply not_elem_of_empty in Hh.
    + intros h Hdb. rewrite Hnext. by apply Hfresh.
    + intros h _ Hh. by apply not_elem_of_empty in Hh.
  - rewrite Hnone. split; [split |]; simpl.
    + intros h Hh. by apply not_elem_of_empty in Hh.
    + intros h Hdb. rewrite Hnext. by apply Hfresh.
    + intros h _ Hh. by apply not_elem_of_empty in Hh.
Qed.

Lemma census_disconnect_db_single_session (s : CensusApp.Session) :
  CensusApp.single_session s →
  CensusApp.single_session (CensusApp.disconnect_db s)
  ∧ live (CensusApp.driver (CensusApp.disconnect_db s)) = ∅.
Proof.
  intros [Hlive Hfresh]. unfold CensusApp.disconnect_db.
  destruct s as [[h0|] status [lv nx]]; simpl in *.
  - assert (Hempty : lv ∖ {[h0]} = ∅).
    { apply set_eq. intros h.
      split; [| intros Hh; by apply not_elem_of_empty in Hh].
      intros Hh. apply elem_of_difference in Hh as [Hh Hn].
      specialize (Hlive h Hh). injection Hlive as ->.
      by apply not_elem_of_singleton in Hn. }
    split; [split |]; simpl; [| done | done].
    intros h Hh. rewrite Hempty in Hh. by apply not_elem_of_empty in Hh.
  - assert (Hempty : lv = ∅).
    { apply set_eq. intros h.
      split; [| intros Hh; by apply not_elem_of_empty in Hh].
      intros Hh. specialize (Hlive h Hh). discriminate. }
    subst lv. split; [split |]; simpl; [| done | done].
    intros h Hh. by apply not_elem_of_empty in Hh.
Qed.

(** C7, [census_crud_ui.py]: connecting twice leaves two live sessions, the
    first one no longer held and never closed. *)
Theorem crud_connect_db_keeps_prior_session :
  let s1 := App.connect_db (Some 1521) true App.initial in
  let s2 := App.connect_db (Some 1521) true s1 in
  App.db s1 = Some 0%nat ∧ live (App.driver s1) = {[0%nat]}
  ∧ App.db s2 = Some 1%nat
  ∧ 0%nat ∈ live (App.driver s2) ∧ 1%nat ∈ live (App.driver s2)
  ∧ size (live (App.driver s2)) = 2%nat.
Proof.
  simpl. split; [done |]. split; [apply (right_id_L ∅ (∪)) |]. split; [done |].
  split; [| split; [| by vm_compute]].
  - apply elem_of_union_r, elem_of_union_l. by apply elem_of_singleton.
  - apply elem_of_union_l. by apply elem_of_singleton.
Qed.

End Sessions.

(** ** Draining the cursor of [GET_PERSON_BY_ID] *)

Section Cursor.

Import OracleDB.

Context {rt : Runtime}.

Lemma zip_dict_some (cols : list string) (values : list pyval) (acc : Row) :
  (length cols ≤ length values)%nat → is_Some (zip_dict cols values acc).
Proof.
  revert values acc. induction cols as [|c cols IH]; intros values acc Hlen.
  - by eexists.
  - destruct values as [|v values]; simpl in Hlen; [lia |].
    simpl. apply IH. lia.
Qed.

Lemma zip_dict_other (cols : list string) (values : list pyval) (acc d : Row)
    (k : string) :
  zip_dict cols values acc = Some d → k ∉ cols → d !! k = acc !! k.
Proof.
  revert values acc. induction cols as [|c cols IH]; intros values acc Hz Hk.
  - simpl in Hz. by injection Hz as <-.
  - destruct values as [|v values]; [discriminate |]. simpl in Hz.
    apply not_elem_of_cons in Hk as [Hkc Hk].
    rewrite (IH _ _ Hz Hk). by rewrite lookup_insert_ne.
Qed.

(** The value under a key is that of the last column carrying that key. *)
Lemma zip_dict_lookup (cols : list string) (values : list pyval) (acc d : Row)
    (i : nat) (k : string) (v : pyval) :
  zip_dict cols values acc = Some d →
  cols !! i = Some k → values !! i = Some v →
  (∀ j k', (i < j)%nat → cols !! j = Some k' → k' ≠ k) →
  d !! k = Some v.
Proof.
  revert values acc i. induction cols as [|c cols IH]; intros values acc i Hz Hc Hv Hlast.
  - discriminate.
  - destruct values as [|v0 values]; [discriminate |]. simpl in Hz.
    destruct i as [|i]; simpl in Hc, Hv.
    + injection Hc as ->. injection Hv as ->.
      rewrite (zip_dict_other _ _ _ _ k Hz).
      * by rewrite lookup_insert_eq.
      * intros Hin. apply list_elem_of_lookup in Hin as [j Hj].
        by apply (Hlast (S j) k); [lia | |].
    + apply (IH _ _ i Hz Hc Hv). intros j k' Hij Hj.
      apply (Hlast (S j) k'); [lia | done].
Qed.

Lemma zip_dict_dom (cols : list string) (values : list pyval) (acc d : Row) :
  zip_dict cols values acc = Some d →
  dom d = list_to_set cols ∪ dom acc.
Proof.
  revert values acc. induction cols as [|c cols IH]; intros values acc Hz.
  - simpl in Hz. injection Hz as <-. simpl. by rewrite (left_id_L ∅ (∪)).
  - destruct values as [|v values]; [discriminate |]. simpl in Hz.
    rewrite (IH _ _ Hz), dom_insert_L. simpl.
    by rewrite (assoc_L (∪)), (comm_L (∪) (list_to_set cols)).
Qed.

(** C10: when the cursor yields no rows, [sp_get_person_by_id] returns
    [None] and raises nothing; when it yields rows (each as wide as the
    description), it returns the first row as a mapping whose keys are the
    lower-cased column names, each with the value of its column. *)
Theorem sp_get_person_by_id_rows (c : Cursor) :
  (fetchall c = [] → sp_get_person_by_id (inr c) = Returned None)
  ∧ (∀ row rows, fetchall c = row :: rows →
       length row = length (description c) →
       ∃ d, sp_get_person_by_id (inr c) = Returned (Some d)
            ∧ dom d = list_to_set (List.map lower (description c))
            ∧ ∀ i name v,
                description c !! i = Some name → row !! i = Some v →
                (∀ j name', (i < j)%nat → description c !! j = Some name' →
                            lower name' ≠ lower name) →
                d !! lower name = Some v).
Proof.
  split.
  - intros Hrows. unfold sp_get_person_by_id. by rewrite Hrows.
  - intros row rows Hrows Hlen. unfold sp_get_person_by_id. rewrite Hrows.
    destruct (zip_dict_some (List.map lower (description c)) row ∅) as [d Hd].
    { rewrite length_map. lia. }
    exists d. rewrite Hd. split; [done |]. split.
    + rewrite (zip_dict_dom _ _ _ _ Hd), dom_empty_L.
      apply (right_id_L ∅ (∪)).
    + intros i name v Hname Hv Hlast.
      apply (zip_dict_lookup _ _ _ _ i _ _ Hd); [| done |].
      * change (List.map lower (description c)) with (lower <$> description c).
        by rewrite list_lookup_fmap, Hname.
      * intros j k' Hij Hj.
        change (List.map lower (description c)) with (lower <$> description c) in Hj.
        rewrite list_lookup_fmap in Hj.
        destruct (description c !! j) as [name'|] eqn:Hnj; [| discriminate].
        injection Hj as <-. by apply (Hlast j).
Qed.

End Cursor.

(** ** Scenarios *)

(** The worked examples type ASCII text only, on which every runtime
    agrees with [ascii_runtime]. *)

Section Scenarios.

Import DataTreeview OracleDB.

#[local] Existing Instance ascii_runtime.

(** The rows of the filter scenario. *)
Example filter_scenario :
  let male : Row := <["sex" := VStr "M"]> (<["age_years" := VInt 34]> ∅) in
  let female : Row := <["sex" := VStr "F"]> (<["age_years" := VInt 5]> ∅) in
  let view := set_filter "F" (load_data [male; female] (DataTreeview.__init__ ["sex"; "age_years"])) in
  filtered_data view = [female]
  ∧ children (tree view) = [[VStr "F"; VInt 5]]
  ∧ data view = [male; female].
Proof. repeat split; reflexivity. Qed.

(** A form with no line number and the age typed as [12]. *)
Example insert_scenario :
  let vars := fun key : string => if String.eqb key "age_years" then "12" else "" in
  CensusApp.insert_person true vars (inr 41) =
  [Callproc "INSERT_PERSON"
     [ArgIn VNone; ArgIn VNone; ArgIn VNone; ArgIn VNone; ArgIn VNone;
      ArgIn VNone; ArgIn VNone; ArgIn (VInt 12); ArgIn VNone; ArgIn VNone;
      ArgIn VNone; ArgIn VNone; ArgOutNumber];
   Commit; SetVar "person_id" "41";
   Msg (showinfo "Success" "Person inserted with ID: 41"); LoadPersons].
Proof. repeat split; reflexivity. Qed.

(** A line number that is no number stops the insert before the call. *)
Example invalid_number_scenario :
  let vars := fun key : string => if String.eqb key "line_no" then "x1" else "" in
  CensusApp.insert_person true vars (inr 41) =
  [Msg (showwarning "Invalid Number" "line_no must be a number")]
  ∧ backend_calls (CensusApp.insert_person true vars (inr 41)) = [].
Proof. repeat split; reflexivity. Qed.

(** A date of birth the calendar does not have stops the insert as well. *)
Example invalid_date_scenario :
  let vars := fun key : string =>
    if String.eqb key "date_of_birth" then "2021-02-30" else "" in
  is_YYYY_MM_DD "2021-02-30" = true
  ∧ CensusApp.insert_person true vars (inr 41) =
    [Msg (showwarning "Invalid Date" "Date must be in YYYY-MM-DD format")].
Proof. repeat split; reflexivity. Qed.

(** Reconnecting in [census_app.py] leaves the new session alone live. *)
Example reconnect_scenario :
  let s1 := CensusApp.connect_db "1521" true CensusApp.initial in
  let s2 := CensusApp.connect_db "1521" true s1 in
  CensusApp.db s2 = Some 1%nat
  ∧ size (live (CensusApp.driver s2)) = 1%nat
  ∧ CensusApp.conn_status s2 = "Connected".
Proof. repeat split; by vm_compute. Qed.

(** A cursor with one row, its column names in upper case. *)
Example cursor_scenario :
  sp_get_person_by_id
    (inr (mkCursor ["PERSON_ID"; "FULL_NAME"] [[VInt 7; VStr "Ama"]])) =
  Returned (Some (<["person_id" := VInt 7]> (<["full_name" := VStr "Ama"]> ∅))).
Proof. repeat split; reflexivity. Qed.

(** The export with a filter that hides a row: the file holds both rows. *)
Example export_hidden_row_scenario :
  let male : Row := <["sex" := VStr "M"]> (<["age_years" := VInt 34]> ∅) in
  let female : Row := <["sex" := VStr "F"]> (<["age_years" := VInt 5]> ∅) in
  let view := set_filter "F" (load_data [male; female] (DataTreeview.__init__ ["sex"; "age_years"])) in
  let w := mkWorld ∅ (fun _ => None) in
  filtered_data view = [female]
  ∧ files (snd (_export_csv view "out.csv" w)) !! "out.csv"
    = Some (Csv.writerows [["sex"; "age_years"]; ["M"; "34"]; ["F"; "5"]]).
Proof. repeat split; reflexivity. Qed.

(** The export of a small table, read back. *)
Lemma export_writes_table_witness :
  let male : Row := <["sex" := VStr "M"]> (<["age_years" := VInt 34]> ∅) in
  let female : Row := <["sex" := VStr "F"]> (<["note" := VStr "a,b"]> ∅) in
  let self := load_data [male; female] (DataTreeview.__init__ ["sex"; "age_years"; "note"]) in
  let w := mkWorld ∅ (fun _ => None) in
  (data self ≠ [] ∧ "out.csv" ≠ "" ∧ open_error w "out.csv" = None)
  ∧ fst (_export_csv self "out.csv" w) =
      [showinfo "Export" "Data exported to out.csv"]
  ∧ Csv.reader
      (Csv.writerows
         (columns self ::
          List.map (fun row => List.map (fun col => Csv.field_text (row_get row col))
                                 (columns self)) (data self)))
    = Some [["sex"; "age_years"; "note"]; ["M"; "34"; ""]; ["F"; ""; "a,b"]].
Proof.
  intros male female self w.
  assert (H1 : data self ≠ []) by discriminate.
  assert (H2 : "out.csv" ≠ "") by discriminate.
  assert (H3 : open_error w "out.csv" = None) by reflexivity.
  destruct (export_writes_table self "out.csv" w H1 H2 H3) as (Hexp & Hread & _).
  split; [by repeat split |]. split.
  - rewrite Hexp. reflexivity.
  - rewrite Hread. reflexivity.
Defined.

End Scenarios.

(** * Further properties *)

(** ** The filter as the user types *)

Section FilterMore.

Import DataTreeview.

Context {rt : Runtime}.

Lemma lower_char_idem (c : ascii) : lower_char (lower_char c) = lower_char c.
Proof. by destruct c as [[] [] [] [] [] [] [] []]. Qed.

Lemma lower_char_ascii (c : ascii) :
  (N_of_ascii (lower_char c) <? 128)%N = (N_of_ascii c <? 128)%N.
Proof. by destruct c as [[] [] [] [] [] [] [] []]. Qed.

Lemma is_ascii_lower (s : string) : is_ascii (ascii_lower s) = is_ascii s.
Proof.
  induction s as [|c s IH]; [done |].
  simpl. by rewrite lower_char_ascii, IH.
Qed.

Lemma is_ascii_append (s1 s2 : string) :
  is_ascii (s1 +:+ s2) = is_ascii s1 && is_ascii s2.
Proof.
  induction s1 as [|c s1 IH]; [done |].
  rewrite append_cons. simpl. by rewrite IH, andb_assoc.
Qed.

Lemma ascii_lower_append (s1 s2 : string) :
  ascii_lower (s1 +:+ s2) = ascii_lower s1 +:+ ascii_lower s2.
Proof.
  induction s1 as [|c s1 IH]; [done |].
  rewrite append_cons. simpl. by rewrite IH, append_cons.
Qed.

Lemma contains_inside (a t b hay : string) :
  contains (a +:+ t +:+ b) hay = true → contains t hay = true.
Proof.
  rewrite !contains_spec. intros [x [y Hxy]].
  exists (x +:+ a), (b +:+ y). by rewrite Hxy, !append_assoc.
Qed.

Lemma filter_sublist {A} (f : A → bool) (l : list A) : sublist (List.filter f l) l.
Proof.
  induction l as [|x l IH]; simpl; [constructor |].
  destruct (f x); by constructor.
Qed.

Lemma filter_sublist_filter {A} (f g : A → bool) (l : list A) :
  (∀ x, f x = true → g x = true) → sublist (List.filter f l) (List.filter g l).
Proof.
  intros Hfg. induction l as [|x l IH]; simpl; [constructor |].
  destruct (f x) eqn:Hf.
  - rewrite (Hfg x Hf). by constructor.
  - destruct (g x); [by constructor | done].
Qed.

(** X1: on ASCII text the filter ignores the case of what is typed: two
    texts that differ in the case of their letters only show the same rows
    and the same tree. *)
Theorem filter_ignores_case (t1 t2 : string) (self : t) :
  is_ascii t1 = true → is_ascii t2 = true → ascii_lower t1 = ascii_lower t2 →
  filtered_data (set_filter t1 self) = filtered_data (set_filter t2 self)
  ∧ tree (set_filter t1 self) = tree (set_filter t2 self).
Proof.
  intros H1 H2 Hsame.
  assert (Hf : filtered_data (set_filter t1 self)
               = filtered_data (set_filter t2 self)).
  { rewrite !filtered_data_set_filter.
    by rewrite (lower_ascii t1 H1), (lower_ascii t2 H2), Hsame. }
  split; [done |].
  unfold set_filter, _refresh_tree. simpl. f_equal. f_equal.
  exact Hf.
Qed.

(** X2: typing more narrows the view. The rows shown for an ASCII text are,
    in order, among the rows shown for any part of that text, and the rows
    shown are always, in order, among the loaded rows. *)
Theorem filter_narrows (a text b : string) (self : t) :
  is_ascii (a +:+ text +:+ b) = true →
  sublist (filtered_data (set_filter (a +:+ text +:+ b) self))
          (filtered_data (set_filter text self))
  ∧ sublist (filtered_data (set_filter text self)) (data self).
Proof.
  intros Hascii.
  assert (Hdata : ∀ t0, sublist (filtered_data (set_filter t0 self)) (data self)).
  { intros t0. rewrite filtered_data_set_filter.
    destruct (truthy (lower t0)); [apply filter_sublist | done]. }
  split; [| apply Hdata].
  pose proof Hascii as Hparts. rewrite !is_ascii_append in Hparts.
  apply andb_true_iff in Hparts as [_ Hparts].
  apply andb_true_iff in Hparts as [Htext _].
  rewrite (filtered_data_set_filter text).
  destruct (truthy (lower text)) eqn:Ht; [| apply Hdata].
  rewrite lower_truthy in Ht.
  rewrite filtered_data_set_filter.
  assert (Hlong : truthy (lower (a +:+ text +:+ b)) = true).
  { rewrite lower_truthy. destruct a; [| done].
    rewrite append_nil_l. destruct text; [discriminate | done]. }
  rewrite Hlong. apply filter_sublist_filter. intros row Hrow.
  apply existsb_exists in Hrow as [col [Hcol Hin]].
  apply existsb_exists. exists col. split; [done |].
  rewrite (lower_ascii _ Hascii), !ascii_lower_append in Hin.
  rewrite (lower_ascii _ Htext). by apply contains_inside in Hin.
Qed.

(** X3: a null under a declared column is searched as the text [None], and
    a row with no value under any declared column matches no typed text. *)
Theorem filter_null_and_missing (text : string) (self : t) :
  (∀ row col, row ∈ data self → col ∈ columns self → row !! col = Some VNone →
     (∃ a b, "none" = a +:+ lower text +:+ b) →
     row ∈ filtered_data (set_filter text self))
  ∧ (∀ row, (∀ col, col ∈ columns self → row !! col = None) → text ≠ "" →
       row ∉ filtered_data (set_filter text self)).
Proof.
  split.
  - intros row col Hrow Hcol Hnull Hsub. rewrite filtered_data_set_filter.
    destruct (truthy (lower text)); [| done].
    apply list_elem_of_In, filter_In. split; [by apply list_elem_of_In |].
    apply row_matches_spec. exists col. split; [done |].
    unfold row_get. rewrite Hnull. simpl. by rewrite lower_ascii.
  - intros row Hmissing Hne. rewrite filtered_data_set_filter, lower_truthy.
    rewrite (truthy_true _ Hne).
    intros Hin. apply list_elem_of_In, filter_In in Hin as [_ Hm].
    apply row_matches_spec in Hm as (col & Hcol & a & b & Hab).
    unfold row_get in Hab. rewrite (Hmissing col Hcol) in Hab. simpl in Hab.
    rewrite lower_ascii in Hab by done. simpl in Hab.
    pose proof (lower_truthy text) as Hlow. rewrite (truthy_true _ Hne) in Hlow.
    destruct a; [| discriminate]. rewrite append_nil_l in Hab.
    destruct (lower text); [discriminate Hlow | discriminate Hab].
Qed.

End FilterMore.

Section FilterExamples.

Import DataTreeview.

#[local] Existing Instance ascii_runtime.

(** [ama] and [AMA] show the same row. *)
Lemma filter_ignores_case_witness :
  let row : Row := <["full_name" := VStr "Ama Mensah"]> ∅ in
  let self := load_data [row] (DataTreeview.__init__ ["full_name"]) in
  (is_ascii "ama" = true ∧ is_ascii "AMA" = true
   ∧ ascii_lower "ama" = ascii_lower "AMA")
  ∧ filtered_data (set_filter "ama" self) = filtered_data (set_filter "AMA" self)
  ∧ filtered_data (set_filter "AMA" self) = [row].
Proof.
  intros row self.
  assert (H1 : is_ascii "ama" = true) by reflexivity.
  assert (H2 : is_ascii "AMA" = true) by reflexivity.
  assert (H3 : ascii_lower "ama" = ascii_lower "AMA") by reflexivity.
  destruct (filter_ignores_case "ama" "AMA" self H1 H2 H3) as [Hrows _].
  split; [by repeat split |]. split; [exact Hrows | reflexivity].
Defined.

(** The rows shown for [Mens] are among those shown for [en]. *)
Lemma filter_narrows_witness :
  let ama : Row := <["full_name" := VStr "Ama Mensah"]> ∅ in
  let ben : Row := <["full_name" := VStr "Ben Osei"]> ∅ in
  let self := load_data [ama; ben] (DataTreeview.__init__ ["full_name"]) in
  is_ascii ("M" +:+ "en" +:+ "s") = true
  ∧ sublist (filtered_data (set_filter ("M" +:+ "en" +:+ "s") self))
            (filtered_data (set_filter "en" self))
  ∧ filtered_data (set_filter ("M" +:+ "en" +:+ "s") self) = [ama]
  ∧ filtered_data (set_filter "en" self) = [ama; ben].
Proof.
  intros ama ben self.
  assert (Hascii : is_ascii ("M" +:+ "en" +:+ "s") = true) by reflexivity.
  destruct (filter_narrows "M" "en" "s" self Hascii) as [Hsub _].
  split; [exact Hascii |]. split; [exact Hsub |]. split; reflexivity.
Defined.

End FilterExamples.

(** ** The grid over any sequence of operations *)

Section GridInvariant.

Import DataTreeview.

Context {rt : Runtime}.

Lemma apply_keeps_sync (self : t) (o : GridOps.op) :
  children (tree self) = List.map (row_values (columns self)) (filtered_data self) →
  Forall (fun i => (i < length (children (tree self)))%nat) (selection (tree self)) →
  let v := GridOps.apply self o in
  children (tree v) = List.map (row_values (columns v)) (filtered_data v)
  ∧ Forall (fun i => (i < length (children (tree v)))%nat) (selection (tree v)).
Proof.
  intros Hsync Hsel. destruct o as [rows | text | i | new_columns]; simpl.
  - split; [done | constructor].
  - split; [done | constructor].
  - split; [exact Hsync |].
    destruct (decide (i < length (children (tree self)))%nat); by repeat constructor.
  - split; [| constructor].
    unfold filtered_data. simpl. by destruct (truthy (lower "")).
Qed.

Lemma run_snoc (cols : list string) (ops : list GridOps.op) (o : GridOps.op) :
  GridOps.run cols (ops ++ [o]) = GridOps.apply (GridOps.run cols ops) o.
Proof. unfold GridOps.run. by rewrite foldl_snoc. Qed.

(** X4: whatever the sequence of loads, filter edits, clicks and column
    replacements since the grid was built, the tree shows exactly the loaded
    rows that pass the current filter text, projected on the current columns,
    in load order, and every selected index is that of a shown item. *)
Theorem grid_shows_filtered_data (cols : list string) (ops : list GridOps.op) :
  let v := GridOps.run cols ops in
  children (tree v) = List.map (row_values (columns v)) (filtered_data v)
  ∧ Forall (fun i => (i < length (children (tree v)))%nat) (selection (tree v)).
Proof.
  induction ops as [|o ops IH] using rev_ind.
  - split; [| constructor].
    unfold filtered_data. simpl. by destruct (truthy (lower "")).
  - rewrite run_snoc. destruct IH as [Hsync Hsel]. by apply apply_keeps_sync.
Qed.

(** The comprehension fails on an index only for values fewer than the
    columns. *)
Lemma zip_dict_none (cols : list string) (values : list pyval) (acc : Row) :
  zip_dict cols values acc = None → (length values < length cols)%nat.
Proof.
  intros Hnone.
  destruct (decide (length cols ≤ length values)%nat) as [Hle |]; [| lia].
  destruct (zip_dict_some cols values acc Hle) as [d Hd]. congruence.
Qed.

(** X5: on a grid built and then operated on in any way, reading the
    selected row returns nothing exactly when nothing is selected;
    otherwise the item read stands for a visible row, and the result is
    built from what Tk hands back for the values of that row: a mapping
    whose keys are exactly the declared columns, or the failure on an index
    when Tk hands back fewer values than there are columns. *)
Theorem selected_row_is_keyed_by_columns (cols : list string) (ops : list GridOps.op) :
  let v := GridOps.run cols ops in
  (get_selected_row v = NoSelection ↔ selection (tree v) = [])
  ∧ (∀ i, head (selection (tree v)) = Some i →
       ∃ r, filtered_data v !! i = Some r
            ∧ get_selected_row v =
              match zip_dict (columns v)
                      (item_values (row_values (columns v) r)) ∅ with
              | Some row => SelectedRow row
              | None => SelectedIndexError
              end)
  ∧ (∀ row, get_selected_row v = SelectedRow row →
       dom row = list_to_set (columns v))
  ∧ (get_selected_row v = SelectedIndexError →
     ∃ i r, head (selection (tree v)) = Some i ∧ filtered_data v !! i = Some r
            ∧ (length (item_values (row_values (columns v) r))
               < length (columns v))%nat).
Proof.
  intros v.
  assert (Hsync : children (tree v) = List.map (row_values (columns v)) (filtered_data v)
                  ∧ Forall (fun i => (i < length (children (tree v)))%nat)
                      (selection (tree v))).
  { clear. unfold v. clear v.
    induction ops as [|o ops IH] using rev_ind.
    - split; [| constructor].
      unfold filtered_data. simpl. by destruct (truthy (lower "")).
    - rewrite run_snoc. destruct IH as [Hsync Hsel]. by apply apply_keeps_sync. }
  destruct Hsync as [Hsync Hsel].
  unfold get_selected_row. destruct (selection (tree v)) as [|i sel] eqn:Hs.
  { split; [done |]. split; [intros i Hi; discriminate |]. split; done. }
  apply Forall_cons in Hsel as [Hi _].
  assert (Hrow : ∃ r, filtered_data v !! i = Some r
                      ∧ children (tree v) !! i = Some (row_values (columns v) r)).
  { destruct (children (tree v) !! i) as [values|] eqn:Hv.
    - rewrite Hsync in Hv.
      change (List.map (row_values (columns v)) (filtered_data v))
        with (row_values (columns v) <$> filtered_data v) in Hv.
      rewrite list_lookup_fmap in Hv.
      destruct (filtered_data v !! i) as [r|]; [| discriminate].
      injection Hv as <-. by exists r.
    - apply lookup_ge_None in Hv. lia. }
  destruct Hrow as (r & Hr & Hitem). rewrite Hitem. simpl head.
  destruct (zip_dict (columns v) (item_values (row_values (columns v) r)) ∅)
    as [d|] eqn:Hd.
  - split; [split; intros H; discriminate H |]. split; [| split].
    + intros i' [= <-]. exists r. by rewrite Hd.
    + intros row [= <-].
      rewrite (zip_dict_dom _ _ _ _ Hd), dom_empty_L. apply (right_id_L ∅ (∪)).
    + intros H. discriminate H.
  - split; [split; intros H; discriminate H |]. split; [| split].
    + intros i' [= <-]. exists r. by rewrite Hd.
    + intros row H. discriminate H.
    + intros _. exists i, r. split; [done |]. split; [done |].
      by apply zip_dict_none in Hd.
Qed.

End GridInvariant.

(** ** What the export leaves alone *)

Section ExportMore.

Import DataTreeview.


End ExportMore.

(** ** Queries *)

Section Queries.

Import OracleDB.

Context {rt : Runtime}.

Lemma dicts_rows (cols : list string) (rows : list (list pyval)) :
  Forall (fun r => (length cols ≤ length r)%nat) rows →
  ∃ ds, Query.dicts cols rows = Some ds
        ∧ length ds = length rows
        ∧ ∀ i r, rows !! i = Some r →
            ∃ d, ds !! i = Some d ∧ zip_dict cols r ∅ = Some d.
Proof.
  induction rows as [|r rows IH]; intros Hall.
  - exists []. split; [done |]. split; [done |]. intros i r Hi. discriminate.
  - apply Forall_cons in Hall as [Hr Hall].
    destruct (IH Hall) as (ds & Hds & Hlen & Hrows).
    destruct (zip_dict_some cols r ∅ Hr) as [d Hd].
    exists (d :: ds). simpl. rewrite Hd, Hds. simpl.
    split; [done |]. split; [by rewrite Hlen |].
    intros [|i] r' Hi; simpl in Hi.
    + injection Hi as <-. by exists d.
    + by apply Hrows.
Qed.

(** X7: [execute_query] returns one mapping per row of the cursor, in the
    cursor's order, each keyed by the lower-cased column names with the
    values of its row (rows being as wide as the description). *)
Theorem execute_query_rows (cur : Query.Cursor) :
  let names := default [] (Query.description cur) in
  Forall (fun r => length r = length names) (Query.rows cur) →
  ∃ ds, Query.execute_query (inr cur) = Returned ds
        ∧ length ds = length (Query.rows cur)
        ∧ ∀ i r, Query.rows cur !! i = Some r →
            ∃ d, ds !! i = Some d
                 ∧ dom d = list_to_set (List.map lower names)
                 ∧ ∀ j name v,
                     names !! j = Some name → r !! j = Some v →
                     (∀ j' name', (j < j')%nat → names !! j' = Some name' →
                                  lower name' ≠ lower name) →
                     d !! lower name = Some v.
Proof.
  intros names Hall. unfold Query.execute_query.
  assert (Hcols : match Query.description cur with
                  | Some (d :: ds) => List.map lower (d :: ds)
                  | Some [] | None => []
                  end = List.map lower names).
  { unfold names. by destruct (Query.description cur) as [[|d ds]|]. }
  rewrite Hcols.
  destruct (dicts_rows (List.map lower names) (Query.rows cur)) as (ds & Hds & Hlen & Hrows).
  { eapply Forall_impl; [exact Hall |]. intros r Hr. simpl in Hr.
    rewrite length_map. lia. }
  exists ds. rewrite Hds. split; [done |]. split; [done |].
  intros i r Hi. destruct (Hrows i r Hi) as (d & Hd & Hz).
  exists d. split; [done |]. split.
  - rewrite (zip_dict_dom _ _ _ _ Hz), dom_empty_L. apply (right_id_L ∅ (∪)).
  - intros j name v Hname Hv Hlast.
    apply (zip_dict_lookup _ _ _ _ j _ _ Hz); [| done |].
    + change (List.map lower names) with (lower <$> names).
      by rewrite list_lookup_fmap, Hname.
    + intros j' k' Hj Hk'.
      change (List.map lower names) with (lower <$> names) in Hk'.
      rewrite list_lookup_fmap in Hk'.
      destruct (names !! j') as [name'|] eqn:Hn; [| discriminate].
      injection Hk' as <-. by apply (Hlast j').
Qed.

End Queries.

Section QueriesExamples.

Import OracleDB.

#[local] Existing Instance ascii_runtime.

(** Two rows of an activity log, read back. *)
Lemma execute_query_rows_witness :
  let cur := Query.mkCursor (Some ["LOG_ID"; "ACTION"])
               [[VInt 2; VStr "INSERT"]; [VInt 1; VStr "DELETE"]] in
  Forall (fun r => length r = 2%nat) (Query.rows cur)
  ∧ ∃ ds, Query.execute_query (inr cur) = Returned ds ∧ length ds = 2%nat.
Proof.
  intros cur.
  assert (Hall : Forall (fun r => length r = length (default [] (Query.description cur)))
                   (Query.rows cur)) by (by repeat constructor).
  split; [exact Hall |].
  destruct (execute_query_rows cur Hall) as (ds & Hq & Hlen & _).
  by exists ds.
Defined.

End QueriesExamples.

(** ** Sessions of [census_app.py] over any sequence of actions *)

Section SessionsMore.

Import OracleDB.

Context {rt : Runtime}.

Lemma census_run_single_session (actions : list CensusSessions.action) :
  CensusApp.single_session (CensusSessions.run actions).
Proof.
  induction actions as [|a actions IH] using rev_ind.
  - apply census_initial_single_session.
  - unfold CensusSessions.run. rewrite foldl_snoc.
    fold (CensusSessions.run actions). destruct a as [port_var accepts |]; simpl.
    + by apply census_connect_db_single_session.
    + by apply census_disconnect_db_single_session.
Qed.

(** X8: in [census_app.py], whatever the sequence of connects (accepted,
    refused, or with a port that is no number) and disconnects, at most one
    session is live, and it is the one the application holds. *)
Theorem census_at_most_one_session (actions : list CensusSessions.action) :
  let s := CensusSessions.run actions in
  (size (live (CensusApp.driver s)) ≤ 1)%nat
  ∧ ∀ h, h ∈ live (CensusApp.driver s) → CensusApp.db s = Some h.
Proof.
  intros s. destruct (census_run_single_session actions) as [Hlive _].
  fold s in Hlive. split; [| exact Hlive].
  destruct (CensusApp.db s) as [h0|] eqn:Hdb.
  - assert (Hsub : live (CensusApp.driver s) ⊆ {[h0]}).
    { intros h Hh. specialize (Hlive h Hh). injection Hlive as ->.
      by apply elem_of_singleton. }
    apply subseteq_size in Hsub. rewrite size_singleton in Hsub. lia.
  - assert (Hempty : live (CensusApp.driver s) = ∅).
    { apply set_eq. intros h. split; [| intros Hh; by apply not_elem_of_empty in Hh].
      intros Hh. specialize (Hlive h Hh). discriminate. }
    rewrite Hempty, size_empty. lia.
Qed.

(** X9: a connect that fails (refused, or a port that is no number) has
    already closed the session held before: no session is live afterwards,
    while the application still holds the old gateway and shows "Connection
    Failed". *)
Theorem census_failed_connect_leaves_none_live (actions : list CensusSessions.action)
    (port_var : string) (accepts : bool) :
  let s := CensusSessions.run actions in
  let s' := CensusApp.connect_db port_var accepts s in
  (accepts = false ∨ int port_var = None) →
  live (CensusApp.driver s') = ∅
  ∧ CensusApp.db s' = CensusApp.db s
  ∧ CensusApp.conn_status s' = "Connection Failed".
Proof.
  intros s s' Hfail. pose proof (census_run_single_session actions) as Hs. fold s in Hs.
  pose proof (close_prior_none_live s Hs) as Hnone.
  unfold s', CensusApp.connect_db.
  destruct (int port_var) as [port|]; [| done].
  destruct Hfail as [-> | Hp]; [done | discriminate].
Qed.

End SessionsMore.

Section SessionsExamples.

Import OracleDB.

#[local] Existing Instance ascii_runtime.

(** A session is open, then the driver refuses the next connect. *)
Lemma census_failed_connect_leaves_none_live_witness :
  let actions := [CensusSessions.Connect "1521" true] in
  let s := CensusSessions.run actions in
  let s' := CensusApp.connect_db "1521" false s in
  (false = false ∨ int "1521" = None)
  ∧ CensusApp.db s = Some 0%nat
  ∧ live (CensusApp.driver s') = ∅
  ∧ CensusApp.db s' = Some 0%nat.
Proof.
  intros actions s s'.
  assert (Hfail : false = false ∨ int "1521" = None) by (by left).
  destruct (census_failed_connect_leaves_none_live actions "1521" false Hfail)
    as (Hlive & Hdb & _).
  split; [exact Hfail |]. split; [reflexivity |]. split; [exact Hlive |].
  exact Hdb.
Defined.

End SessionsExamples.

(** ** Numbers through the form: [int(str(n))] *)

Section NumberText.

Context {rt : Runtime}.

Lemma scan_digits_cons (c : ascii) (s : string) (pu : bool) (acc : Z) (k : nat) (v : Z) :
  digit_value c = Some v →
  scan_digits (String c s) pu acc k = scan_digits s false (10 * acc + v) (S k).
Proof. intros Hc. simpl. by rewrite Hc. Qed.

(** Scanning the digits [pretty] printed adds the number printed. *)
Lemma scan_digits_pretty_N_go (n : N) :
  (0 < n)%N → ∀ (s : string) (pu : bool) (acc : Z) (k : nat),
  ∃ (e : Z) (d : nat),
    scan_digits (pretty_N_go n s) pu acc k
    = scan_digits s false (acc * e + Z.of_N n) (k + d)
    ∧ String.length (pretty_N_go n s) = (d + String.length s)%nat
    ∧ (0 < d)%nat.
Proof.
  induction (N.lt_wf_0 n) as [n _ IH]. intros Hn s pu acc k.
  rewrite pretty_N_go_step by done.
  destruct (decide (n / 10 = 0)%N) as [Hq | Hq].
  - rewrite Hq, pretty_N_go_0.
    rewrite (scan_digits_cons _ _ _ _ _ _ (digit_value_low_digit n)).
    exists 10, 1%nat. split; [| split; [done | lia]].
    f_equal; [| lia].
    assert (n < 10)%N by (apply N.div_small_iff in Hq; lia).
    rewrite Z.mod_small by lia. lia.
  - destruct (IH (n / 10)%N) with
      (s := String (pretty_N_char (n mod 10)) s) (pu := pu) (acc := acc) (k := k)
      as (e & d & Hscan & Hlen & Hd).
    { apply N.div_lt; lia. }
    { by apply N.neq_0_lt_0. }
    rewrite Hscan, Hlen.
    rewrite (scan_digits_cons _ _ _ _ _ _ (digit_value_low_digit n)).
    exists (10 * e), (S d). split; [| split; [simpl; lia | lia]].
    f_equal; [| lia].
    rewrite N2Z.inj_div. change (Z.of_N 10) with 10.
    Z.div_mod_to_equations. lia.
Qed.

(** What [pretty] prints for a positive number starts with a digit. *)
Lemma pretty_N_go_head (n : N) :
  (0 < n)%N → ∀ s, ∃ q rest, (q < 10)%N ∧ pretty_N_go n s = String (pretty_N_char q) rest.
Proof.
  induction (N.lt_wf_0 n) as [n _ IH]. intros Hn s.
  rewrite pretty_N_go_step by done.
  destruct (decide (n / 10 = 0)%N) as [Hq | Hq].
  - rewrite Hq, pretty_N_go_0. exists (n mod 10)%N, s.
    split; [apply N.mod_upper_bound; lia | done].
  - apply IH; [apply N.div_lt; lia | by apply N.neq_0_lt_0].
Qed.

Lemma unsigned_int_digit_head (q : N) (rest : string) :
  (q < 10)%N →
  ascii_int (String (pretty_N_char q) rest)
  = unsigned_int (String (pretty_N_char q) rest)
  ∧ unsigned_int (String (pretty_N_char q) rest) =
    match scan_digits (String (pretty_N_char q) rest) false 0 0%nat with
    | Some (n, digits, rest') =>
        if (0 <? digits)%nat && (digits <=? max_str_digits)%nat && all_space rest'
        then Some n else None
    | None => None
    end.
Proof.
  intros Hq.
  assert (q = 0 ∨ q = 1 ∨ q = 2 ∨ q = 3 ∨ q = 4 ∨ q = 5 ∨ q = 6 ∨ q = 7
          ∨ q = 8 ∨ q = 9)%N as Hcases by lia.
  by destruct Hcases as [-> | [-> | [-> | [-> | [-> | [-> | [-> | [-> | [-> | ->]]]]]]]]].
Qed.

Lemma unsigned_int_pretty (p : positive) :
  (String.length (pretty_N_go (N.pos p) "") ≤ max_str_digits)%nat →
  ascii_int (pretty_N_go (N.pos p) "") = Some (Z.pos p)
  ∧ unsigned_int (pretty_N_go (N.pos p) "") = Some (Z.pos p).
Proof.
  intros Hlen.
  destruct (pretty_N_go_head (N.pos p)) with (s := "") as (q & rest & Hq & Hhead);
    [lia |].
  destruct (scan_digits_pretty_N_go (N.pos p)) with
    (s := "") (pu := false) (acc := 0) (k := 0%nat) as (e & d & Hscan & Hd & Hpos);
    [lia |].
  simpl in Hscan. rewrite Hd in Hlen. simpl in Hlen.
  assert (Hcheck : (0 <? d)%nat && (d <=? max_str_digits)%nat && all_space "" = true).
  { rewrite (proj2 (Nat.ltb_lt 0 d)) by lia.
    by rewrite (proj2 (Nat.leb_le d max_str_digits)) by lia. }
  destruct (unsigned_int_digit_head q rest Hq) as [Hint Hun].
  rewrite <- Hhead in Hint, Hun.
  rewrite Hscan, Hcheck in Hun.
  split; [by rewrite Hint |]. done.
Qed.

Lemma ascii_int_pretty (n : Z) :
  (String.length (pretty n) ≤ max_str_digits)%nat → ascii_int (pretty n) = Some n.
Proof.
  intros Hlen. destruct n as [|p|p].
  - done.
  - change (pretty (Z.pos p)) with (pretty_N_go (N.pos p) "") in *.
    by apply unsigned_int_pretty.
  - change (pretty (Z.neg p)) with (String "-" (pretty_N_go (N.pos p) "")) in *.
    simpl in Hlen.
    destruct (unsigned_int_pretty p) as [_ Hun]; [lia |].
    change (ascii_int (String "-" (pretty_N_go (N.pos p) "")))
      with (Z.opp <$> unsigned_int (pretty_N_go (N.pos p) "")).
    by rewrite Hun.
Qed.

(** What [str()] prints for an integer is ASCII text. *)
Lemma is_ascii_pretty_N_go (n : N) (s : string) :
  is_ascii (pretty_N_go n s) = is_ascii s.
Proof.
  revert s. induction (N.lt_wf_0 n) as [n _ IH]. intros s.
  destruct (decide (n = 0)%N) as [-> | Hn]; [by rewrite pretty_N_go_0 |].
  rewrite pretty_N_go_step by by apply N.neq_0_lt_0.
  rewrite IH by (apply N.div_lt; lia).
  simpl. by rewrite (digit_is_ascii _ _ (digit_value_low_digit n)).
Qed.

Lemma is_ascii_pretty (n : Z) : is_ascii (pretty n) = true.
Proof.
  destruct n as [|p|p]; [done | |].
  - change (pretty (Z.pos p)) with (pretty_N_go (N.pos p) "").
    by rewrite is_ascii_pretty_N_go.
  - change (pretty (Z.neg p)) with (String "-" (pretty_N_go (N.pos p) "")).
    simpl. by rewrite is_ascii_pretty_N_go.
Qed.

(** [int(str(n)) == n], for a number within the interpreter's digit cap. *)
Lemma int_pretty (n : Z) :
  (String.length (pretty n) ≤ max_str_digits)%nat → int (pretty n) = Some n.
Proof.
  intros Hlen. rewrite int_ascii by apply is_ascii_pretty.
  by apply ascii_int_pretty.
Qed.

Lemma pretty_nonempty (n : Z) : truthy (pretty n) = true.
Proof.
  destruct n as [|p|p]; [done | | done].
  change (pretty (Z.pos p)) with (pretty_N_go (N.pos p) "").
  destruct (pretty_N_go_head (N.pos p)) with (s := "") as (q & rest & _ & ->);
    [lia | done].
Qed.

Lemma to_int_pretty (n : Z) :
  (String.length (pretty n) ≤ max_str_digits)%nat → App.to_int (pretty n) = VInt n.
Proof.
  intros Hlen. unfold App.to_int. by rewrite pretty_nonempty, int_pretty.
Qed.

End NumberText.

(** ** The household form of [census_app.py] *)

Section Households.

Import Effect CensusHandlers.







End Households.

(** ** Retrieving a person in [census_app.py] *)

Section Retrieve.

Import Effect CensusHandlers.

Context {rt : Runtime}.

Lemma fill_form_in (padded_year : bool) (data : Row) (vars : string → string)
    (key : string) :
  In key CensusApp.person_vars →
  fill_form padded_year data vars key = display padded_year (row_get data key).
Proof.
  unfold CensusApp.person_vars. simpl.
  intros Hin. repeat (destruct Hin as [<- | Hin]; [reflexivity |]). destruct Hin.
Qed.

Lemma fill_form_out (padded_year : bool) (data : Row) (vars : string → string)
    (key : string) :
  ¬ In key CensusApp.person_vars →
  fill_form padded_year data vars key = vars key.
Proof.
  intros Hout. unfold fill_form, CensusApp.person_vars. cbn [foldl]. unfold set_var.
  repeat match goal with
  | |- context [String.eqb key ?k] =>
      rewrite (proj2 (String.eqb_neq key k))
        by (intros ->; apply Hout; unfold CensusApp.person_vars; simpl; tauto)
  end.
  done.
Qed.

(** X11: [retrieve_person] asks the backend only for an id that [int()]
    reads; without a person found the form is left as it is; with one,
    every variable of the person form is overwritten by the text of its
    column (empty for a null or missing column) and no other variable
    changes. *)
Theorem retrieve_person_fills_form (vars : string → string)
    (reply : string + OracleDB.Cursor) (padded_year : bool) (int_error : string) :
  let out := retrieve_person true vars reply padded_year int_error in
  (vars "person_id" = "" ∨ int (vars "person_id") = None →
     filter reaches_backend out.1 = [] ∧ out.2 = vars)
  ∧ ((∀ data, OracleDB.sp_get_person_by_id reply = OracleDB.Returned (Some data) →
        data = ∅) → out.2 = vars)
  ∧ (∀ n data,
       int (vars "person_id") = Some n →
       OracleDB.sp_get_person_by_id reply = OracleDB.Returned (Some data) →
       data ≠ ∅ →
       out.1 = [CallProc "GET_PERSON_BY_ID"
                  [OracleDB.ArgIn (VInt n); OracleDB.ArgOutCursor]]
       ∧ (∀ key, In key CensusApp.person_vars →
            out.2 key = display padded_year (row_get data key))
       ∧ (∀ key, In key CensusApp.person_vars →
            data !! key = None ∨ data !! key = Some VNone → out.2 key = "")
       ∧ (∀ key, ¬ In key CensusApp.person_vars → out.2 key = vars key)).
Proof.
  intros out. subst out. unfold retrieve_person. simpl negb. cbv iota zeta.
  split; [| split].
  - intros [Hempty | Hbad].
    + by rewrite Hempty.
    + rewrite Hbad. by destruct (truthy (vars "person_id")).
  - intros Hnone.
    destruct (truthy (vars "person_id")); [| done]. simpl negb. cbv iota.
    destruct (int (vars "person_id")) as [n|]; [| done].
    destruct (OracleDB.sp_get_person_by_id reply) as [[data|]|e]; [| done | done].
    by rewrite (Hnone data eq_refl).
  - intros n data Hint Hget Hdata.
    assert (truthy (vars "person_id") = true) as ->.
    { destruct (vars "person_id"); [by rewrite int_empty in Hint | done]. }
    simpl negb. cbv iota. rewrite Hint, Hget.
    rewrite bool_decide_eq_false_2 by done. simpl.
    split; [done |]. split; [| split].
    + intros key Hkey. by apply fill_form_in.
    + intros key Hkey Hnull. rewrite fill_form_in by done.
      unfold row_get. by destruct Hnull as [-> | ->].
    + intros key Hkey. by apply fill_form_out.
Qed.

(** X12: The id a successful insert writes into the form is the id the
    next retrieve asks for, in [census_app.py] and in [census_crud_ui.py]. *)
Theorem inserted_id_is_retrieved (new_id : Z) :
  (String.length (pretty new_id) ≤ max_str_digits)%nat →
  (∀ vars args rest,
     CensusApp.insert_person true vars (inr new_id) = Callproc "INSERT_PERSON" args :: rest →
     In (SetVar "person_id" (pretty new_id)) rest)
  ∧ (∀ vars, In (SetVar "person_id" (pretty new_id))
               (App.on_insert true vars (inr new_id)))
  ∧ (∀ vars reply padded_year int_error,
       vars "person_id" = pretty new_id →
       ∃ rest,
         (retrieve_person true vars reply padded_year int_error).1 =
         CallProc "GET_PERSON_BY_ID"
           [OracleDB.ArgIn (VInt new_id); OracleDB.ArgOutCursor] :: rest)
  ∧ (∀ vars reply int_error,
       vars "person_id" = pretty new_id →
       ∃ rest,
         (AppHandlers.on_retrieve true vars reply int_error).1 =
         CallProc "GET_PERSON_BY_ID"
           [OracleDB.ArgIn (VInt new_id); OracleDB.ArgOutCursor] :: rest).
Proof.
  intros Hcap. split; [| split; [| split]].
  - intros vars args rest. rewrite insert_person_cases.
    repeat match goal with
    | |- context [if ?b then _ else _] => destruct b; [discriminate |]
    end.
    intros Heq. injection Heq as _ <-. simpl. tauto.
  - intros vars. simpl. tauto.
  - intros vars reply padded_year int_error Hid.
    unfold retrieve_person. rewrite Hid, pretty_nonempty, int_pretty by done.
    simpl negb. cbv iota zeta.
    destruct (OracleDB.sp_get_person_by_id reply) as [[data|]|e]; eauto.
    destruct (bool_decide (data = ∅)); eauto.
  - intros vars reply int_error Hid.
    unfold AppHandlers.on_retrieve. rewrite Hid, pretty_nonempty, int_pretty by done.
    simpl negb. cbv iota zeta.
    destruct (OracleDB.sp_get_person_by_id reply) as [[data|]|e]; eauto.
    destruct (bool_decide (data = ∅)); eauto.
Qed.

End Retrieve.

(** ** From the retrieved row back to the procedure call *)

Section RetrieveThenInsert.

Import Effect CensusHandlers.

Context {rt : Runtime}.

Lemma pretty_N_go_length (n : N) (s : string) :
  (String.length s ≤ String.length (pretty_N_go n s))%nat.
Proof.
  destruct (decide (n = 0)%N) as [-> | Hn].
  - by rewrite pretty_N_go_0.
  - destruct (scan_digits_pretty_N_go n) with
      (s := s) (pu := false) (acc := 0) (k := 0%nat) as (e & d & _ & -> & _).
    + by apply N.neq_0_lt_0.
    + lia.
Qed.

Lemma div10_lower (n k : N) : (10 * k ≤ n)%N → (k ≤ n / 10)%N.
Proof. intros H. by apply N.div_le_lower_bound. Qed.

(** A year from 1000 on is printed on four digits at least: padding it to
    four digits changes nothing. *)
Lemma pad0_4_pretty (y : Z) : 1000 ≤ y → pad0 4 y = pretty y.
Proof.
  intros Hy. destruct y as [|p|p]; [lia | | lia].
  unfold pad0. change (pretty (Z.pos p)) with (pretty_N_go (N.pos p) "").
  assert (1000 ≤ N.pos p)%N as H0 by lia.
  assert (100 ≤ N.pos p / 10)%N as H1 by (apply div10_lower; lia).
  assert (10 ≤ N.pos p / 10 / 10)%N as H2 by (by apply div10_lower).
  assert (1 ≤ N.pos p / 10 / 10 / 10)%N as H3 by (by apply div10_lower).
  assert (4 ≤ String.length (pretty_N_go (N.pos p) ""))%nat as Hlen.
  { rewrite (pretty_N_go_step (N.pos p)) by lia.
    rewrite (pretty_N_go_step (N.pos p / 10)) by lia.
    rewrite (pretty_N_go_step (N.pos p / 10 / 10)) by lia.
    rewrite (pretty_N_go_step (N.pos p / 10 / 10 / 10)) by lia.
    etrans; [| apply pretty_N_go_length]. done. }
  replace (4 - String.length (pretty_N_go (N.pos p) ""))%nat with 0%nat by lia.
  done.
Qed.

Lemma strftime_isoformat (padded_year : bool) (y m d : Z) :
  1000 ≤ y → PyMore.strftime_ymd padded_year y m d = isoformat y m d.
Proof.
  intros Hy. unfold PyMore.strftime_ymd, isoformat.
  destruct padded_year; [done |]. by rewrite pad0_4_pretty.
Qed.

Lemma isoformat_nonempty (y m d : Z) : 1000 ≤ y → truthy (isoformat y m d) = true.
Proof.
  intros Hy. unfold isoformat. rewrite pad0_4_pretty by done.
  pose proof (pretty_nonempty y) as Hne.
  destruct (pretty y); [done |]. by rewrite append_cons.
Qed.

Lemma display_number (padded_year : bool) (cell : option pyval) :
  number_cell cell →
  let text := display padded_year (default (VStr "") cell) in
  truthy text && bool_decide (int text = None) = false
  ∧ App.to_int text = kept_number cell.
Proof.
  destruct cell as [[| | n | | |]|]; simpl; try done.
  intros Hcap. rewrite to_int_pretty, int_pretty by done.
  by rewrite andb_false_r.
Qed.

Lemma display_date (padded_year : bool) (cell : option pyval) :
  date_cell cell →
  let text := display padded_year (default (VStr "") cell) in
  truthy text && bool_decide (strptime_ymd text = None) = false
  ∧ App.to_date text = kept_date cell.
Proof.
  destruct cell as [[| | | | y m d | y m d h mi s]|]; simpl; try done.
  - intros [Hvalid Hy]. rewrite strftime_isoformat by done.
    unfold App.to_date.
    rewrite strptime_isoformat, isoformat_nonempty by done.
    by rewrite andb_false_r.
  - intros [Hvalid Hy]. rewrite strftime_isoformat by done.
    unfold App.to_date.
    rewrite strptime_isoformat, isoformat_nonempty by done.
    by rewrite andb_false_r.
Qed.

(** X13: Submitting the form as [retrieve_person] filled it sends the
    retrieved number and date columns back unchanged: an integer as that
    integer, a date (or the date of a datetime) from the year 1000 on as that
    date, a null or missing column as null; no warning stops the call. *)
Theorem retrieved_form_resubmits (padded_year : bool) (data : Row)
    (vars : string → string) (reply : OracleDB.insert_error + Z) :
  number_cell (data !! "line_no") →
  number_cell (data !! "age_years") →
  date_cell (data !! "date_of_birth") →
  let shown := fun key => or_None (display padded_year (row_get data key)) in
  ∃ rest,
    CensusApp.insert_person true (fill_form padded_year data vars) reply =
    Callproc "INSERT_PERSON"
      [OracleDB.ArgIn (shown "ea_code"); OracleDB.ArgIn (shown "structure_no");
       OracleDB.ArgIn (shown "household_no");
       OracleDB.ArgIn (kept_number (data !! "line_no"));
       OracleDB.ArgIn (shown "full_name"); OracleDB.ArgIn (shown "sex");
       OracleDB.ArgIn (kept_date (data !! "date_of_birth"));
       OracleDB.ArgIn (kept_number (data !! "age_years"));
       OracleDB.ArgIn (shown "nationality"); OracleDB.ArgIn (shown "ethnicity");
       OracleDB.ArgIn (shown "religion"); OracleDB.ArgIn (shown "marital_status");
       OracleDB.ArgOutNumber] :: rest.
Proof.
  intros Hline Hage Hdob shown. subst shown.
  destruct (display_number padded_year _ Hline) as [Hline_ok Hline_val].
  destruct (display_number padded_year _ Hage) as [Hage_ok Hage_val].
  destruct (display_date padded_year _ Hdob) as [Hdob_ok Hdob_val].
  fold (row_get data "line_no") in Hline_ok, Hline_val.
  fold (row_get data "age_years") in Hage_ok, Hage_val.
  fold (row_get data "date_of_birth") in Hdob_ok, Hdob_val.
  rewrite insert_person_cases.
  rewrite !fill_form_in by (unfold CensusApp.person_vars; simpl; tauto).
  rewrite Hline_ok, Hdob_ok, Hage_ok, Hline_val, Hdob_val, Hage_val.
  eauto.
Qed.

End RetrieveThenInsert.

(** ** Retrieve, update and delete in [census_crud_ui.py] *)

Section Crud.

Import Effect AppHandlers.

Context {rt : Runtime}.

Lemma crud_fill_form_in (data : Row) (vars : string → string) (key : string) :
  In key filled →
  fill_form data vars key = str (PyMore.or_empty (OracleDB.get data key)).
Proof.
  unfold filled.
  intros Hin. repeat (destruct Hin as [<- | Hin]; [reflexivity |]). destruct Hin.
Qed.

Lemma crud_fill_form_out (data : Row) (vars : string → string) (key : string) :
  ¬ In key filled → fill_form data vars key = vars key.
Proof.
  intros Hout. unfold fill_form, set_var.
  repeat match goal with
  | |- context [String.eqb key ?k] =>
      rewrite (proj2 (String.eqb_neq key k))
        by (intros ->; apply Hout; unfold filled; simpl; tauto)
  end.
  done.
Qed.

Lemma on_update_unfold (vars : string → string) (reply : option string) :
  on_update true vars reply =
  if negb (PyMore.bool (App.to_int (vars "person_id")))
  then [Show (showwarning "Update" "Enter Person ID to update.")]
  else
    CallProc "UPDATE_PERSON"
      [OracleDB.ArgIn (App.to_int (vars "person_id"));
       OracleDB.ArgIn (or_None (vars "full_name"));
       OracleDB.ArgIn (or_None (vars "sex"));
       OracleDB.ArgIn (App.to_date (vars "dob"));
       OracleDB.ArgIn (App.to_int (vars "age_years"));
       OracleDB.ArgIn (or_None (vars "nationality"));
       OracleDB.ArgIn (or_None (vars "ethnicity"));
       OracleDB.ArgIn (or_None (vars "religion"));
       OracleDB.ArgIn (or_None (vars "marital_status"))] ::
    match reply with
    | Some e => [Show (showerror "Update failed" e); LogLine ("Update failed: " +:+ e)]
    | None =>
        [CommitTx; Show (showinfo "Update" "Updated successfully.");
         LogLine ("Updated person_id=" +:+ str (App.to_int (vars "person_id")))]
    end.
Proof. reflexivity. Qed.

(** X14: [on_update] calls UPDATE_PERSON exactly when the id text reads as
    an integer other than zero (an id of 0 is refused like a missing one);
    the call carries nine values, and the household key and the line number
    typed in the form have no part in what is sent. *)
Theorem on_update_needs_nonzero_id (vars : string → string) (reply : option string) :
  let fx := on_update true vars reply in
  (∀ n, int (vars "person_id") = Some n → n ≠ 0 →
     head fx =
     Some (CallProc "UPDATE_PERSON"
             [OracleDB.ArgIn (VInt n);
              OracleDB.ArgIn (or_None (vars "full_name"));
              OracleDB.ArgIn (or_None (vars "sex"));
              OracleDB.ArgIn (App.to_date (vars "dob"));
              OracleDB.ArgIn (App.to_int (vars "age_years"));
              OracleDB.ArgIn (or_None (vars "nationality"));
              OracleDB.ArgIn (or_None (vars "ethnicity"));
              OracleDB.ArgIn (or_None (vars "religion"));
              OracleDB.ArgIn (or_None (vars "marital_status"))]))
  ∧ (vars "person_id" = "" ∨ int (vars "person_id") = None
     ∨ int (vars "person_id") = Some 0 →
     fx = [Show (showwarning "Update" "Enter Person ID to update.")])
  ∧ (∀ vars',
       (∀ key, ¬ In key ["ea_code"; "structure_no"; "household_no"; "line_no"] →
          vars' key = vars key) →
       on_update true vars' reply = fx).
Proof.
  intros fx. subst fx. rewrite on_update_unfold. split; [| split].
  - intros n Hint Hn.
    assert (App.to_int (vars "person_id") = VInt n) as ->.
    { by apply to_int_cases. }
    simpl. by rewrite (proj2 (Z.eqb_neq n 0)).
  - intros Hbad.
    assert (PyMore.bool (App.to_int (vars "person_id")) = false) as ->; [| done].
    unfold App.to_int.
    destruct Hbad as [-> | [-> | ->]]; [done | | ].
    + by destruct (truthy (vars "person_id")).
    + by destruct (truthy (vars "person_id")).
  - intros vars' Hsame. rewrite on_update_unfold.
    rewrite !Hsame by (simpl; intuition discriminate). done.
Qed.

Lemma on_retrieve_found (vars : string → string) (reply : string + OracleDB.Cursor)
    (int_error : string) (n : Z) (data : Row) :
  int (vars "person_id") = Some n →
  OracleDB.sp_get_person_by_id reply = OracleDB.Returned (Some data) →
  data ≠ ∅ →
  on_retrieve true vars reply int_error =
  ([CallProc "GET_PERSON_BY_ID" [OracleDB.ArgIn (VInt n); OracleDB.ArgOutCursor];
    LogRetrieved data], fill_form data vars).
Proof.
  intros Hint Hget Hfull. unfold on_retrieve. simpl negb. cbv iota zeta.
  assert (truthy (vars "person_id") = true) as ->.
  { destruct (vars "person_id"); [by rewrite int_empty in Hint | done]. }
  simpl negb. cbv iota. rewrite Hint, Hget.
  by rewrite bool_decide_eq_false_2 by done.
Qed.

Lemma on_retrieve_form (vars : string → string) (reply : string + OracleDB.Cursor)
    (int_error : string) :
  (on_retrieve true vars reply int_error).2 = vars
  ∨ ∃ data, OracleDB.sp_get_person_by_id reply = OracleDB.Returned (Some data)
      ∧ data ≠ ∅
      ∧ (on_retrieve true vars reply int_error).2 = fill_form data vars.
Proof.
  unfold on_retrieve. simpl negb. cbv iota zeta.
  destruct (truthy (vars "person_id")); [| by left]. simpl negb. cbv iota.
  destruct (int (vars "person_id")) as [n|]; [| by left].
  destruct (OracleDB.sp_get_person_by_id reply) as [[data|]|e];
    [| by left | by left].
  destruct (decide (data = ∅)) as [Hempty | Hfull].
  - rewrite bool_decide_eq_true_2 by done. by left.
  - rewrite bool_decide_eq_false_2 by done. right. by exists data.
Qed.

(** X15: [on_retrieve] changes seven variables of the form at most, and
    only when a person is found; a column that is null, missing, empty or
    zero is shown as empty text. So an age of 0, once retrieved, is sent as
    null by the update that follows. *)
Theorem on_retrieve_shows_falsy_as_empty (vars : string → string)
    (reply : string + OracleDB.Cursor) (int_error : string) :
  let out := on_retrieve true vars reply int_error in
  (∀ key, ¬ In key filled → out.2 key = vars key)
  ∧ ((∀ data, OracleDB.sp_get_person_by_id reply = OracleDB.Returned (Some data) →
        data = ∅) → out.2 = vars)
  ∧ (∀ n data,
       int (vars "person_id") = Some n →
       OracleDB.sp_get_person_by_id reply = OracleDB.Returned (Some data) →
       data ≠ ∅ →
       (∀ key v, In key filled → data !! key = Some v → PyMore.bool v = true →
          out.2 key = str v)
       ∧ (∀ key, In key filled →
            PyMore.bool (OracleDB.get data key) = false → out.2 key = "")
       ∧ (data !! "age_years" = Some (VInt 0) → n ≠ 0 →
          ∀ reply', ∃ args rest,
            on_update true out.2 reply' = CallProc "UPDATE_PERSON" args :: rest
            ∧ args !! 0%nat = Some (OracleDB.ArgIn (VInt n))
            ∧ args !! 4%nat = Some (OracleDB.ArgIn VNone))).
Proof.
  intros out. subst out. split; [| split].
  - intros key Hkey.
    destruct (on_retrieve_form vars reply int_error)
      as [-> | (data & _ & _ & ->)]; [done |].
    by apply crud_fill_form_out.
  - intros Hnone.
    destruct (on_retrieve_form vars reply int_error)
      as [Heq | (data & Hget & Hfull & _)]; [done |].
    by apply Hnone in Hget.
  - intros n data Hint Hget Hfull.
    rewrite (on_retrieve_found vars reply int_error n data) by done.
    cbn [snd]. split; [| split].
    + intros key v Hkey Hv Htrue. rewrite crud_fill_form_in by done.
      unfold OracleDB.get, PyMore.or_empty. rewrite Hv. simpl. by rewrite Htrue.
    + intros key Hkey Hfalse. rewrite crud_fill_form_in by done.
      unfold PyMore.or_empty. by rewrite Hfalse.
    + intros Hage Hn reply'. rewrite on_update_unfold.
      rewrite (crud_fill_form_out data vars "person_id")
        by (unfold filled; simpl; intuition discriminate).
      rewrite (crud_fill_form_in data vars "age_years")
        by (unfold filled; simpl; tauto).
      assert (App.to_int (vars "person_id") = VInt n) as ->
        by by apply to_int_cases.
      unfold OracleDB.get. rewrite Hage. simpl.
      rewrite (proj2 (Z.eqb_neq n 0)) by done. simpl. eauto.
Qed.

(** X16: [on_delete] calls DELETE_PERSON only after the question was
    answered with yes, and only with the integer the id text reads as; the
    question comes first, before the text is read as a number, and a refusal
    ends the handler with nothing else done. *)
Theorem on_delete_asks_first (vars : string → string) (confirmed : bool)
    (reply : option string) (int_error : string) :
  let fx := on_delete true vars confirmed reply int_error in
  (∀ name args, In (CallProc name args) fx →
     confirmed = true ∧ name = "DELETE_PERSON"
     ∧ ∃ n, int (vars "person_id") = Some n ∧ args = [OracleDB.ArgIn (VInt n)])
  ∧ (∀ n, confirmed = true → int (vars "person_id") = Some n →
       In (CallProc "DELETE_PERSON" [OracleDB.ArgIn (VInt n)]) fx)
  ∧ (vars "person_id" ≠ "" →
     head fx = Some (AskYesNo "Confirm"
                       ("Delete person_id=" +:+ vars "person_id" +:+ "?")))
  ∧ (vars "person_id" ≠ "" → confirmed = false → tail fx = []).
Proof.
  intros fx. subst fx. unfold on_delete. simpl negb. cbv iota zeta.
  split; [| split; [| split]].
  - intros name args.
    destruct (truthy (vars "person_id")); simpl negb; cbv iota;
      [| by intros [Hin | []]].
    destruct confirmed; simpl negb; cbv iota; [| by intros [Hin | []]].
    destruct (int (vars "person_id")) as [n|].
    + intros [Hin | [Hin | Hin]]; [done | |].
      * injection Hin as <- <-. eauto.
      * destruct reply; simpl in Hin; intuition discriminate.
    + simpl. intuition discriminate.
  - intros n -> Hint.
    assert (truthy (vars "person_id") = true) as ->.
    { destruct (vars "person_id"); [by rewrite int_empty in Hint | done]. }
    rewrite Hint. simpl. tauto.
  - intros Hid. by rewrite truthy_true.
  - intros Hid ->. by rewrite truthy_true.
Qed.

End Crud.

(** ** The handlers on a small example *)

Section HandlerScenarios.

Import Effect.

#[local] Existing Instance ascii_runtime.

(** Person 42 is inserted, then retrieved. *)
Lemma inserted_id_is_retrieved_witness :
  (String.length (pretty 42) ≤ max_str_digits)%nat
  ∧ ∃ rest,
      (CensusHandlers.retrieve_person true (fun _ => "42") (inl "ORA-12541") true "").1 =
      CallProc "GET_PERSON_BY_ID" [OracleDB.ArgIn (VInt 42); OracleDB.ArgOutCursor]
      :: rest.
Proof.
  assert (Hcap : (String.length (pretty 42) ≤ max_str_digits)%nat)
    by (apply Nat.leb_le; reflexivity).
  destruct (inserted_id_is_retrieved 42 Hcap) as (_ & _ & Hretrieve & _).
  split; [exact Hcap |].
  apply Hretrieve. reflexivity.
Defined.

(** A row with a line number, an age and a birth date given as a datetime
    is retrieved into an empty form and submitted again. *)
Lemma retrieved_form_resubmits_witness :
  let data : Row :=
    <["line_no" := VInt 3]>
      (<["age_years" := VInt 41]>
         (<["date_of_birth" := VDateTime 1984 2 29 0 0 0]> ∅)) in
  (CensusHandlers.number_cell (data !! "line_no")
   ∧ CensusHandlers.number_cell (data !! "age_years")
   ∧ CensusHandlers.date_cell (data !! "date_of_birth"))
  ∧ ∃ rest,
      CensusApp.insert_person true
        (CensusHandlers.fill_form false data (fun _ => "")) (inr 7) =
      Callproc "INSERT_PERSON"
        [OracleDB.ArgIn VNone; OracleDB.ArgIn VNone; OracleDB.ArgIn VNone;
         OracleDB.ArgIn (VInt 3);
         OracleDB.ArgIn VNone; OracleDB.ArgIn VNone;
         OracleDB.ArgIn (VDate 1984 2 29);
         OracleDB.ArgIn (VInt 41);
         OracleDB.ArgIn VNone; OracleDB.ArgIn VNone; OracleDB.ArgIn VNone;
         OracleDB.ArgIn VNone; OracleDB.ArgOutNumber] :: rest.
Proof.
  intros data.
  assert (Hline : CensusHandlers.number_cell (data !! "line_no"))
    by (apply Nat.leb_le; reflexivity).
  assert (Hage : CensusHandlers.number_cell (data !! "age_years"))
    by (apply Nat.leb_le; reflexivity).
  assert (Hdob : CensusHandlers.date_cell (data !! "date_of_birth"))
    by (split; [reflexivity | discriminate]).
  split; [by repeat split |].
  destruct (retrieved_form_resubmits false data (fun _ => "") (inr 7) Hline Hage Hdob)
    as (rest & Hcall).
  exists rest. exact Hcall.
Defined.

End HandlerScenarios.

